(** * sae: the run bootstrap of [sae/__main__.py]

    A shallow embedding of [run()] and of the library operations it
    calls, followed by the properties of the bootstrap: topology
    detection from [LOCAL_RANK], precision selection, the per-rank
    partition of the tokenized dataset, the rank-gated console output
    and the hand-off to the trainer. *)

From Stdlib Require Import ZArith String Ascii List Lia Permutation DecimalString.
From stdpp Require Import base option list sorting gmap strings.

Local Open Scope string_scope.
Local Open Scope list_scope.
Local Open Scope Z_scope.

(** ** Python values *)

(** Exceptions that can cross [run()].  [ValueError] and [TypeError]
    carry the offending value or the message, [SystemExit] the exit
    code that argparse uses when it rejects the command line,
    [ExternalError] is whatever a collaborator (torch, transformers,
    datasets, the trainer) raises; [run()] catches none of them. *)
Inductive Exc : Type :=
| ValueError (detail : string)
| TypeError (detail : string)
| SystemExit (code : Z)
| ExternalError (origin : string).

Inductive Result (A : Type) : Type :=
| Ok (a : A)
| Raise (e : Exc).
Arguments Ok {A} a.
Arguments Raise {A} e.

Definition is_Ok {A} (r : Result A) : bool :=
  match r with Ok _ => true | Raise _ => false end.

(** *** The builtin [int(str)], base 10

    The grammar of a decimal literal in ASCII text: optional
    surrounding whitespace, an optional sign, then decimal digits in
    which single underscores may separate digits.  [parse] is what
    the interpreter computes for a text that is ASCII ([is_ascii]) and
    has at most [default_max_str_digits] digits ([digit_count]).
    Outside that domain the interpreter differs: it also reads the
    decimal digits and the whitespace of other scripts, and it raises
    [ValueError] for a literal of more digits than the limit.  The
    properties below that classify a text by [parse] therefore assume
    the text to be in the domain; the others speak of the outcome of
    [int] only. *)
Module PyInt.

(** A text of code points below 128 only. *)
Fixpoint is_ascii (s : string) : bool :=
  match s with
  | String c s' => (N_of_ascii c <? 128)%N && is_ascii s'
  | EmptyString => true
  end.

(** [sys.int_info.default_max_str_digits]. *)
Definition default_max_str_digits : Z := 4300.

(** [Py_ISSPACE]: tab, line feed, vertical tab, form feed, carriage
    return and space. *)
Definition is_space (c : ascii) : bool :=
  let n := N_of_ascii c in
  ((9 <=? n)%N && (n <=? 13)%N) || (n =? 32)%N.

Definition digit_of (c : ascii) : option Z :=
  let n := N_of_ascii c in
  if ((48 <=? n)%N && (n <=? 57)%N)%bool then Some (Z.of_N n - 48) else None.

Definition is_underscore (c : ascii) : bool := (N_of_ascii c =? 95)%N.

(** The number of decimal digits in a text, which for a literal is
    the number the interpreter compares with its limit: underscores,
    sign and whitespace do not count, leading zeros do. *)
Fixpoint digit_count (s : string) : Z :=
  match s with
  | String c s' =>
      (match digit_of c with Some _ => 1 | None => 0 end) + digit_count s'
  | EmptyString => 0
  end.

(** The texts on which [parse] below is the interpreter's [int]. *)
Definition in_domain (s : string) : Prop :=
  is_ascii s = true /\ digit_count s <= default_max_str_digits.

Fixpoint skip_spaces (s : string) : string :=
  match s with
  | String c s' => if is_space c then skip_spaces s' else s
  | EmptyString => s
  end.

(** Scans the digit run.  [prev_us] records that the previous
    character was an underscore, after which a digit must follow.
    Returns the value and the unread rest. *)
Fixpoint scan_digits (acc : Z) (prev_us : bool) (s : string) : option (Z * string) :=
  match s with
  | String c s' =>
      match digit_of c with
      | Some d => scan_digits (10 * acc + d) false s'
      | None =>
          if is_underscore c
          then (if prev_us then None else scan_digits acc true s')
          else (if prev_us then None else Some (acc, s))
      end
  | EmptyString => if prev_us then None else Some (acc, s)
  end.

(** The unsigned part: it must start with a digit. *)
Definition scan_number (s : string) : option (Z * string) :=
  match s with
  | String c s' =>
      match digit_of c with
      | Some d => scan_digits d false s'
      | None => None
      end
  | EmptyString => None
  end.

Definition scan_sign (s : string) : bool * string :=
  match s with
  | String "+" s' => (false, s')
  | String "-" s' => (true, s')
  | _ => (false, s)
  end.

Definition parse (s : string) : option Z :=
  let '(neg, s1) := scan_sign (skip_spaces s) in
  match scan_number s1 with
  | Some (v, rest) =>
      match skip_spaces rest with
      | EmptyString => Some (if neg then - v else v)
      | String _ _ => None
      end
  | None => None
  end.

End PyInt.

(** [int(s)] for a text in the domain of [PyInt.parse]: the integer,
    or [ValueError] naming the text. *)
Definition int (s : string) : Result Z :=
  match PyInt.parse s with
  | Some z => Ok z
  | None => Raise (ValueError s)
  end.

(** [str(z)] as an f-string interpolates an integer. *)
Definition str_of_int (z : Z) : string := NilZero.string_of_int (Z.to_int z).

(** ** The [datasets] library: [Dataset.select] and [Dataset.shard]

    A dataset is an ordered, indexable collection of rows.  [shard] is
    the method of the [datasets] library that [run()] calls on the
    tokenized dataset.  It is embedded with its keyword parameter
    [contiguous].  [run()] passes only [num_shards] and [index], so it
    gets the default of the installed release ([False] in the 2.x
    releases, [True] from 3.0 on), which is a parameter of the world
    below. *)
Module Datasets.
Section Rows.

Context {A : Type}.

Definition len (ds : list A) : Z := Z.of_nat (length ds).

(** [numpy.arange(start, stop, step)] for a positive [step]:
    [ceil((stop - start) / step)] values [start + k * step]. *)
Definition arange (start stop step : Z) : list Z :=
  (fun k => start + k * step) <$> seqZ 0 ((stop - start + step - 1) `div` step).

(** [range(start, stop)]. *)
Definition range (start stop : Z) : list Z := seqZ start (stop - start).

(** Row [i] of the dataset; a negative [i] counts from the end. *)
Definition row_at (ds : list A) (i : Z) : option A :=
  if 0 <=? i then ds !! Z.to_nat i
  else if 0 <=? len ds + i then ds !! Z.to_nat (len ds + i)
  else None.

Fixpoint select_rows (ds : list A) (indices : list Z) : Result (list A) :=
  match indices with
  | [] => Ok []
  | i :: rest =>
      match row_at ds i with
      | None => Raise (ExternalError "IndexError")
      | Some x =>
          match select_rows ds rest with
          | Ok xs => Ok (x :: xs)
          | Raise e => Raise e
          end
      end
  end.

(** [Dataset.select(indices)]: an empty dataset is returned as it
    is; an empty [indices] gives the empty dataset. *)
Definition select (ds : list A) (indices : list Z) : Result (list A) :=
  if len ds =? 0 then Ok ds else select_rows ds indices.

(** The [indices] that [shard] computes for a dataset of [n] rows. *)
Definition shard_indices (n num_shards index : Z) (contiguous : bool) : list Z :=
  if contiguous then
    let div := n `div` num_shards in
    let mod_ := n `mod` num_shards in
    let start := div * index + Z.min index mod_ in
    let end_ := start + div + (if index <? mod_ then 1 else 0) in
    range start end_
  else
    arange index n num_shards.

(** [Dataset.shard(num_shards, index, contiguous)]. *)
Definition shard (ds : list A) (num_shards index : Z) (contiguous : bool)
  : Result (list A) :=
  if negb ((0 <=? index) && (index <? num_shards))
  then Raise (ValueError "index should be in [0, num_shards-1]")
  else select ds (shard_indices (len ds) num_shards index contiguous).

(** Where the contiguous block of [index] starts: the [start] of
    [shard_indices], named for the proofs. *)
Definition block_start (n num_shards index : Z) : Z :=
  n `div` num_shards * index + Z.min index (n `mod` num_shards).

End Rows.
End Datasets.

(** ** Data of the run *)

(** [torch.dtype] values a model handle can carry, and their [repr]. *)
Inductive Dtype : Type := float16 | bfloat16 | float32.

Definition dtype_repr (d : Dtype) : string :=
  match d with
  | float16 => "torch.float16"
  | bfloat16 => "torch.bfloat16"
  | float32 => "torch.float32"
  end.

(** The [torch_dtype] argument of the model loader: a [torch.dtype] or
    the string ["auto"]. *)
Inductive TorchDtype : Type :=
| TheDtype (d : Dtype)
| DtypeAuto.

(** Modelled from the spec: [TrainConfig], the base training
    configuration, is declared in [sae/trainer.py], which is not among
    the sources.  It "includes at least a quantization flag and a
    credential token"; these are the two fields [run()] reads, as
    [args.load_in_8bit] and [args.hf_token].  Its other fields are
    opaque here and reach the trainer untouched. *)
Record TrainConfig : Type := {
  load_in_8bit : bool;
  hf_token : option string;
}.

(** [RunConfig(TrainConfig)]. *)
Record RunConfig : Type := {
  base : TrainConfig;
  model : string;
  dataset : string;
  split : string;
  ctx_len : Z;
}.

Definition default_model : string := "EleutherAI/pythia-160m".
Definition default_dataset : string := "togethercomputer/RedPajama-Data-1T-Sample".
Definition default_split : string := "train".
Definition default_ctx_len : Z := 2048.

(** The command line after argparse has split it into options: for
    each field declared by [RunConfig] the text supplied for it, if
    any, and for the inherited fields the outcome of resolving them. *)
Record CommandLine : Type := {
  cli_base : Result TrainConfig;
  cli_model : option string;
  cli_dataset : option string;
  cli_split : option string;
  cli_ctx_len : option string;
}.

(** [parse(RunConfig)]: supplied values over the declared defaults.
    [ctx_len: int] is converted with [int]; argparse turns a failed
    conversion into exit code 2. *)
Definition parse_RunConfig (cl : CommandLine) : Result RunConfig :=
  match cli_base cl with
  | Raise e => Raise e
  | Ok b =>
      match
        match cli_ctx_len cl with
        | None => Ok default_ctx_len
        | Some text =>
            match int text with
            | Ok z => Ok z
            | Raise _ => Raise (SystemExit 2)
            end
        end
      with
      | Raise e => Raise e
      | Ok n =>
          Ok {| base := b;
                model := default default_model (cli_model cl);
                dataset := default default_dataset (cli_dataset cl);
                split := default default_split (cli_split cl);
                ctx_len := n |}
      end
  end.

(** A loaded model: the handle exposes its effective [dtype]. *)
Record Model : Type := {
  model_id : string;
  model_dtype : Dtype;
}.

Record Tokenizer : Type := { tokenizer_id : string }.

(** Raw examples are texts; the tokenized dataset holds token-id
    sequences. *)
Definition RawDataset : Type := list string.
Definition Dataset : Type := list (list Z).

(** ** Effects: the trace and the console *)

Inductive Event : Type :=
| Printed (line : string)
| CudaSetDevice (device : Z)
| InitProcessGroup (backend : string)
| GetWorldSize
| ParseArgs
| IsBf16Supported
| FromPretrained (name device_map : string) (in_8bit : bool)
                 (torch_dtype : TorchDtype) (token : option string)
| LoadDataset (path split_name : string) (trust_remote_code : bool)
| TokenizerFromPretrained (name : string)
| ChunkAndTokenize (max_seq_len : Z)
| Shard (num_shards index : Z)
| TrainerInit (args : RunConfig) (data : Dataset) (m : Model)
| TrainerFit.

(** What [sys.stdout] can be bound to. *)
Inductive Stream : Type := Console.

(** [trace] lists, oldest first, the calls made to collaborators and
    the lines that reached the console; [sys_stdout] is the current
    binding of [sys.stdout] ([None] inside [redirect_stdout(None)]). *)
Record State : Type := {
  trace : list Event;
  sys_stdout : option Stream;
}.

Definition initial : State := {| trace := []; sys_stdout := Some Console |}.

Definition log (ev : Event) (s : State) : State :=
  {| trace := trace s ++ [ev]; sys_stdout := sys_stdout s |}.

Definition set_stdout (target : option Stream) (s : State) : State :=
  {| trace := trace s; sys_stdout := target |}.

Definition M (A : Type) : Type := State -> Result A * State.

Definition ret {A} (a : A) : M A := fun s => (Ok a, s).

Definition raise {A} (e : Exc) : M A := fun s => (Raise e, s).

Definition bind {A B} (m : M A) (k : A -> M B) : M B :=
  fun s =>
    match m s with
    | (Ok a, s') => k a s'
    | (Raise e, s') => (Raise e, s')
    end.

Declare Scope run_scope.
Delimit Scope run_scope with run.
Notation "x <- m ;; k" := (bind m (fun x => k))
  (at level 100, m at next level, right associativity) : run_scope.
Notation "m ;;; k" := (bind m (fun _ => k))
  (at level 100, right associativity) : run_scope.
Local Open Scope run_scope.

Definition lift {A} (r : Result A) : M A := fun s => (r, s).

(** A call to a collaborator: logged, then its outcome. *)
Definition call {A} (ev : Event) (r : Result A) : M A :=
  fun s => (r, log ev s).

(** [print(line)]: written to [sys.stdout]; when that is [None] the
    text is dropped. *)
Definition print (line : string) : M unit :=
  fun s =>
    match sys_stdout s with
    | Some Console => (Ok tt, log (Printed line) s)
    | None => (Ok tt, s)
    end.

Fixpoint print_all (lines : list string) : M unit :=
  match lines with
  | [] => ret tt
  | l :: rest => print l ;;; print_all rest
  end.

(** Context managers of [contextlib] used by [run()]. *)
Inductive ContextManager : Type :=
| nullcontext
| redirect_stdout (new_target : option Stream).

(** [with cm: body].  [redirect_stdout.__enter__] saves the binding of
    [sys.stdout] and installs the new target; [__exit__] restores the
    saved binding and returns [None], so an exception of the body is
    re-raised.  [nullcontext] does nothing. *)
Definition with_ {A} (cm : ContextManager) (body : M A) : M A :=
  fun s =>
    match cm with
    | nullcontext => body s
    | redirect_stdout new_target =>
        let old_target := sys_stdout s in
        let '(r, s') := body (set_stdout new_target s) in
        (r, set_stdout old_target s')
    end.

(** ** The world outside [run()]

    Everything [run()] reads or calls: the process environment and
    command line, torch, the model and dataset loaders, the tokenizer
    and chunking step, and the trainer.  [chunk_and_tokenize]
    ([sae/data.py]) and [SaeTrainer] with its [fit] ([sae/trainer.py])
    belong to the repository but are not among the sources; like the
    libraries they are parameters here.  A collaborator is given by its
    outcome; the trainer's two entry points also by the lines they
    [print] before that outcome.  [shard_contiguous_default] is the
    default of the [contiguous] parameter of [Dataset.shard] in the
    installed [datasets] release. *)
Record World : Type := {
  os_environ : gmap string string;
  sys_argv : CommandLine;
  shard_contiguous_default : bool;
  cuda_set_device : Z -> Result unit;
  init_process_group : string -> Result unit;
  get_world_size : Z;
  is_bf16_supported : bool;
  from_pretrained :
    string -> string -> bool -> TorchDtype -> option string -> Result Model;
  load_dataset : string -> string -> bool -> Result RawDataset;
  tokenizer_from_pretrained : string -> Result Tokenizer;
  chunk_and_tokenize : RawDataset -> Tokenizer -> Z -> Result Dataset;
  SaeTrainer : RunConfig -> Dataset -> Model -> list string * Result unit;
  fit : RunConfig -> Dataset -> Model -> list string * Result unit;
}.

(** A call to a collaborator that prints: logged, its lines go through
    [print], then its outcome. *)
Definition call_printing (ev : Event) (out : list string * Result unit) : M unit :=
  call ev (Ok tt) ;;; print_all (fst out) ;;; lift (snd out).

Definition is_not_None {A} (v : option A) : bool :=
  match v with Some _ => true | None => false end.

(** [int(v)] for a value that may be [None]. *)
Definition int_of (v : option string) : Result Z :=
  match v with
  | Some text => int text
  | None => Raise (TypeError "int() argument must be a string, not 'NoneType'")
  end.

(** ** [run()] *)

(** Lines 37-39: [local_rank], [ddp] and [rank]. *)
Definition topology (w : World) : M (option string * bool * Z) :=
  let local_rank := os_environ w !! "LOCAL_RANK" in
  let ddp := is_not_None local_rank in
  rank <- (if ddp then lift (int_of local_rank) else ret 0) ;;
  ret (local_rank, ddp, rank).

(** Lines 41-46: device binding, process group, announcement. *)
Definition init_distributed (w : World) (local_rank : option string) (ddp : bool)
  (rank : Z) : M unit :=
  if ddp then
    device <- lift (int_of local_rank) ;;
    call (CudaSetDevice device) (cuda_set_device w device) ;;;
    call (InitProcessGroup "nccl") (init_process_group w "nccl") ;;;
    (if rank =? 0 then
       n <- call GetWorldSize (Ok (get_world_size w)) ;;
       print ("Using DDP across " +:+ str_of_int n +:+ " GPUs.")
     else ret tt)
  else ret tt.

(** Lines 49-54: the [torch_dtype] handed to the model loader. *)
Definition select_dtype (w : World) (args : RunConfig) : M TorchDtype :=
  if load_in_8bit (base args) then ret (TheDtype float16)
  else
    bf16 <- call IsBf16Supported (Ok (is_bf16_supported w)) ;;
    if (bf16 : bool) then ret (TheDtype bfloat16) else ret DtypeAuto.

(** Lines 75-76: the rows kept by this process. *)
Definition shard_for_rank (w : World) (ddp : bool) (rank : Z) (tokenized : Dataset)
  : M Dataset :=
  if ddp then
    n <- call GetWorldSize (Ok (get_world_size w)) ;;
    call (Shard n rank)
      (Datasets.shard tokenized n rank (shard_contiguous_default w))
  else ret tokenized.

(** The context manager of line 79. *)
Definition output_gate (rank : Z) : ContextManager :=
  if rank =? 0 then nullcontext else redirect_stdout None.

(** Lines 79-84: the block under the [with]. *)
Definition gated_block (w : World) (args : RunConfig) (tokenized : Dataset)
  (model_ : Model) : M unit :=
  print ("Training on '" +:+ dataset args +:+ "' (split '" +:+ split args +:+ "')") ;;;
  print ("Storing model weights in " +:+ dtype_repr (model_dtype model_)) ;;;
  call_printing (TrainerInit args tokenized model_) (SaeTrainer w args tokenized model_) ;;;
  call_printing TrainerFit (fit w args tokenized model_).

(** [run()], lines 36-84. *)
Definition run (w : World) : M unit :=
  topo <- topology w ;;
  let '(local_rank, ddp, rank) := topo in
  init_distributed w local_rank ddp rank ;;;
  args <- call ParseArgs (parse_RunConfig (sys_argv w)) ;;
  dtype <- select_dtype w args ;;
  model_ <- call (FromPretrained (model args) ("cuda:" +:+ str_of_int rank)
                    (load_in_8bit (base args)) dtype (hf_token (base args)))
              (from_pretrained w (model args) ("cuda:" +:+ str_of_int rank)
                 (load_in_8bit (base args)) dtype (hf_token (base args))) ;;
  dataset_ <- call (LoadDataset (dataset args) (split args) true)
                (load_dataset w (dataset args) (split args) true) ;;
  tokenizer <- call (TokenizerFromPretrained (model args))
                 (tokenizer_from_pretrained w (model args)) ;;
  tokenized <- call (ChunkAndTokenize (ctx_len args))
                 (chunk_and_tokenize w dataset_ tokenizer (ctx_len args)) ;;
  tokenized <- shard_for_rank w ddp rank tokenized ;;
  with_ (output_gate rank) (gated_block w args tokenized model_).

(** Lines 37-74 on their own: everything [run()] does before it
    partitions the data, with the values later lines use. *)
Definition acquire (w : World) : M (bool * Z * RunConfig * Dataset * Model) :=
  topo <- topology w ;;
  let '(local_rank, ddp, rank) := topo in
  init_distributed w local_rank ddp rank ;;;
  args <- call ParseArgs (parse_RunConfig (sys_argv w)) ;;
  dtype <- select_dtype w args ;;
  model_ <- call (FromPretrained (model args) ("cuda:" +:+ str_of_int rank)
                    (load_in_8bit (base args)) dtype (hf_token (base args)))
              (from_pretrained w (model args) ("cuda:" +:+ str_of_int rank)
                 (load_in_8bit (base args)) dtype (hf_token (base args))) ;;
  dataset_ <- call (LoadDataset (dataset args) (split args) true)
                (load_dataset w (dataset args) (split args) true) ;;
  tokenizer <- call (TokenizerFromPretrained (model args))
                 (tokenizer_from_pretrained w (model args)) ;;
  tokenized <- call (ChunkAndTokenize (ctx_len args))
                 (chunk_and_tokenize w dataset_ tokenizer (ctx_len args)) ;;
  ret (ddp, rank, args, tokenized, model_).

(** The outcome and the final state of a whole run. *)
Definition exec (w : World) : Result unit * State := run w initial.

(** The lines that reached the console, in order. *)
Definition console (t : list Event) : list string :=
  omap (fun ev => match ev with Printed line => Some line | _ => None end) t.

Definition is_Printed (ev : Event) : bool :=
  match ev with Printed _ => true | _ => false end.

(** The non-console events: the calls made to collaborators. *)
Definition calls (t : list Event) : list Event :=
  List.filter (fun ev => negb (is_Printed ev)) t.

(** How often an event of some kind occurs in a trace. *)
Definition occurrences (kind : Event -> bool) (t : list Event) : nat :=
  length (List.filter kind t).

Definition is_TrainerInit (ev : Event) : bool :=
  match ev with TrainerInit _ _ _ => true | _ => false end.

Definition is_TrainerFit (ev : Event) : bool :=
  match ev with TrainerFit => true | _ => false end.

(** A model or dataset access: a call to one of the loaders or to the
    tokenization step. *)
Definition is_access (ev : Event) : bool :=
  match ev with
  | FromPretrained _ _ _ _ _ | LoadDataset _ _ _
  | TokenizerFromPretrained _ | ChunkAndTokenize _ => true
  | _ => false
  end.

(** ** Stages of [run()] and what they leave in the trace *)

(** Lines 75-84 given the values of lines 37-74. *)
Definition handoff (w : World) (v : bool * Z * RunConfig * Dataset * Model) : M unit :=
  let '(ddp, rank, args, tokenized, model_) := v in
  data <- shard_for_rank w ddp rank tokenized ;;
  with_ (output_gate rank) (gated_block w args data model_).

(** The three lines [run()] prints itself. *)
Definition announcement (w : World) : string :=
  "Using DDP across " +:+ str_of_int (get_world_size w) +:+ " GPUs.".

Definition training_line (args : RunConfig) : string :=
  "Training on '" +:+ dataset args +:+ "' (split '" +:+ split args +:+ "')".

Definition storing_line (m : Model) : string :=
  "Storing model weights in " +:+ dtype_repr (model_dtype m).

(** The PrecisionChoice policy in the words of the specification: a
    table over (quantization flag, hardware bf16 support). *)
Definition precision_choice (quantization_flag hardware_bf16_support : bool) : TorchDtype :=
  match quantization_flag, hardware_bf16_support with
  | true, _ => TheDtype float16
  | false, true => TheDtype bfloat16
  | false, false => DtypeAuto
  end.

(** Lines printed while [sys.stdout] is bound to [out]. *)
Definition shown (out : option Stream) (lines : list string) : list Event :=
  match out with
  | Some Console => Printed <$> lines
  | None => []
  end.

(** Events of lines 41-46 when every call returns. *)
Definition init_events (w : World) (ddp : bool) (rank : Z) : list Event :=
  if ddp then
    [CudaSetDevice rank; InitProcessGroup "nccl"] ++
    (if rank =? 0 then [GetWorldSize; Printed (announcement w)] else [])
  else [].

(** Events of lines 37-74 when every call returns. *)
Definition acquire_events (w : World) (ddp : bool) (rank : Z) (args : RunConfig)
  : list Event :=
  init_events w ddp rank ++
  [ParseArgs] ++
  (if load_in_8bit (base args) then [] else [IsBf16Supported]) ++
  [FromPretrained (model args) ("cuda:" +:+ str_of_int rank) (load_in_8bit (base args))
     (precision_choice (load_in_8bit (base args)) (is_bf16_supported w))
     (hf_token (base args));
   LoadDataset (dataset args) (split args) true;
   TokenizerFromPretrained (model args);
   ChunkAndTokenize (ctx_len args)].

(** Events of lines 75-76 when [shard] returns. *)
Definition shard_events (w : World) (ddp : bool) (rank : Z) : list Event :=
  if ddp then [GetWorldSize; Shard (get_world_size w) rank] else [].

(** Events of the block under the [with], run with [sys.stdout] bound
    to [out]. *)
Definition gated_events (w : World) (out : option Stream) (args : RunConfig)
  (data : Dataset) (m : Model) : list Event :=
  shown out [training_line args; storing_line m] ++
  [TrainerInit args data m] ++
  shown out (fst (SaeTrainer w args data m)) ++
  (if is_Ok (snd (SaeTrainer w args data m))
   then [TrainerFit] ++ shown out (fst (fit w args data m))
   else []).

(** Outcome of that block. *)
Definition gated_outcome (w : World) (args : RunConfig) (data : Dataset) (m : Model)
  : Result unit :=
  match snd (SaeTrainer w args data m) with
  | Ok _ => snd (fit w args data m)
  | Raise e => Raise e
  end.

(** What the trainer prints: the constructor's lines, then [fit]'s if
    the constructor returned. *)
Definition trainer_lines (w : World) (args : RunConfig) (data : Dataset) (m : Model)
  : list string :=
  fst (SaeTrainer w args data m) ++
  (if is_Ok (snd (SaeTrainer w args data m)) then fst (fit w args data m) else []).

(** ** Blocks of statements

    The computations a [with] body is made of: returning, raising,
    calling collaborators, printing through [print], and sequencing. *)
Inductive Block : forall {A : Type}, M A -> Prop :=
| Block_ret {A} (a : A) : Block (ret a)
| Block_raise {A} (e : Exc) : Block (@raise A e)
| Block_lift {A} (r : Result A) : Block (lift r)
| Block_call {A} (ev : Event) (r : Result A) :
    is_Printed ev = false -> Block (call ev r)
| Block_print (line : string) : Block (print line)
| Block_bind {A B} (m : M A) (k : A -> M B) :
    Block m -> (forall a, Block (k a)) -> Block (bind m k).

(** [m] takes every state to one related to it by [R]. *)
Definition respects {A} (R : State -> State -> Prop) (m : M A) : Prop :=
  forall s, R s (snd (m s)).

(** Nothing new reached the console. *)
Definition quiet (s s' : State) : Prop := console (trace s') = console (trace s).

(** A dataset load allows remote code. *)
Definition allows_remote_code (ev : Event) : Prop :=
  match ev with
  | LoadDataset _ _ trust_remote_code => trust_remote_code = true
  | _ => True
  end.

(** Every dataset load so far allowed remote code. *)
Definition trusting (t : list Event) : Prop := Forall allows_remote_code t.

Definition stays_trusting (s s' : State) : Prop := trusting (trace s) -> trusting (trace s').

(** ** Sample worlds *)

Definition sample_rows (n : nat) : Dataset := (fun i => [Z.of_nat i]) <$> seq 0 n.

Definition sample_command_line (in_8bit : bool) (ctx : option string) : CommandLine :=
  {| cli_base := Ok {| load_in_8bit := in_8bit; hf_token := None |};
     cli_model := None;
     cli_dataset := None;
     cli_split := None;
     cli_ctx_len := ctx |}.

(** Every collaborator returns; the loader gives a handle of the
    requested dtype ([float32] for ["auto"]); tokenization yields
    [rows]; [fit] prints two lines; [Dataset.shard] defaults to
    [contiguous=False]. *)
Definition sample_world (local_rank : option string) (world_size : Z)
  (cl : CommandLine) (rows : Dataset) : World :=
  {| os_environ :=
       match local_rank with
       | Some text => {[ "LOCAL_RANK" := text ]}
       | None => ∅
       end;
     sys_argv := cl;
     shard_contiguous_default := false;
     cuda_set_device := fun _ => Ok tt;
     init_process_group := fun _ => Ok tt;
     get_world_size := world_size;
     is_bf16_supported := true;
     from_pretrained := fun name _ _ torch_dtype _ =>
       Ok {| model_id := name;
             model_dtype := match torch_dtype with
                            | TheDtype d => d
                            | DtypeAuto => float32
                            end |};
     load_dataset := fun _ _ _ => Ok ["first text"; "second text"];
     tokenizer_from_pretrained := fun name => Ok {| tokenizer_id := name |};
     chunk_and_tokenize := fun _ _ _ => Ok rows;
     SaeTrainer := fun _ _ _ => ([], Ok tt);
     fit := fun _ _ _ => (["step 1"; "step 2"], Ok tt) |}.

(** Four processes, ten tokenized rows; this process is rank 0. *)
Definition world_of_four : World :=
  sample_world (Some "0") 4 (sample_command_line false None) (sample_rows 10).

(** Single process: no [LOCAL_RANK]. *)
Definition world_single : World :=
  sample_world None 1 (sample_command_line false None) (sample_rows 10).

(** Rank 3 of four processes. *)
Definition world_rank3 : World :=
  sample_world (Some "3") 4 (sample_command_line false None) (sample_rows 10).

(** 8-bit quantization requested, rank 0 of two processes. *)
Definition world_8bit : World :=
  sample_world (Some "0") 2 (sample_command_line true None) (sample_rows 10).

(** [LOCAL_RANK=abc]. *)
Definition world_bad_rank : World :=
  sample_world (Some "abc") 2 (sample_command_line false None) (sample_rows 10).

(** [LOCAL_RANK=-1]: [torch.cuda.set_device] ignores a negative index,
    the loader rejects the device ["cuda:-1"]. *)
Definition world_negative_rank : World :=
  {| os_environ := {[ "LOCAL_RANK" := "-1" ]};
     sys_argv := sample_command_line false None;
     shard_contiguous_default := false;
     cuda_set_device := fun _ => Ok tt;
     init_process_group := fun _ => Ok tt;
     get_world_size := 2;
     is_bf16_supported := true;
     from_pretrained := fun _ _ _ _ _ => Raise (ExternalError "RuntimeError");
     load_dataset := fun _ _ _ => Ok ["first text"; "second text"];
     tokenizer_from_pretrained := fun name => Ok {| tokenizer_id := name |};
     chunk_and_tokenize := fun _ _ _ => Ok (sample_rows 10);
     SaeTrainer := fun _ _ _ => ([], Ok tt);
     fit := fun _ _ _ => ([], Ok tt) |}.

(** [--ctx_len 0] in a single process. *)
Definition world_zero_ctx : World :=
  sample_world None 1 (sample_command_line false (Some "0")) (sample_rows 10).

(** [--ctx_len abc] in a single process. *)
Definition world_bad_ctx : World :=
  sample_world None 1 (sample_command_line false (Some "abc")) (sample_rows 10).

(** Rank 3 of four processes, but only two tokenized rows. *)
Definition world_few_rows : World :=
  sample_world (Some "3") 4 (sample_command_line false None) (sample_rows 2).

(** Single process on hardware without bf16 support: the loader is
    asked for ["auto"] and settles on float32. *)
Definition world_no_bf16 : World :=
  {| os_environ := ∅;
     sys_argv := sample_command_line false None;
     shard_contiguous_default := false;
     cuda_set_device := fun _ => Ok tt;
     init_process_group := fun _ => Ok tt;
     get_world_size := 1;
     is_bf16_supported := false;
     from_pretrained := fun name _ _ torch_dtype _ =>
       Ok {| model_id := name;
             model_dtype := match torch_dtype with
                            | TheDtype d => d
                            | DtypeAuto => float32
                            end |};
     load_dataset := fun _ _ _ => Ok ["first text"; "second text"];
     tokenizer_from_pretrained := fun name => Ok {| tokenizer_id := name |};
     chunk_and_tokenize := fun _ _ _ => Ok (sample_rows 10);
     SaeTrainer := fun _ _ _ => ([], Ok tt);
     fit := fun _ _ _ => ([], Ok tt) |}.

(** ** Observations for whole-run properties *)

(** Lines 41-84 given the values of lines 37-39. *)
Definition run_from (w : World) (local_rank : option string) (ddp : bool) (rank : Z)
  : M unit :=
  init_distributed w local_rank ddp rank ;;;
  args <- call ParseArgs (parse_RunConfig (sys_argv w)) ;;
  dtype <- select_dtype w args ;;
  model_ <- call (FromPretrained (model args) ("cuda:" +:+ str_of_int rank)
                    (load_in_8bit (base args)) dtype (hf_token (base args)))
              (from_pretrained w (model args) ("cuda:" +:+ str_of_int rank)
                 (load_in_8bit (base args)) dtype (hf_token (base args))) ;;
  dataset_ <- call (LoadDataset (dataset args) (split args) true)
                (load_dataset w (dataset args) (split args) true) ;;
  tokenizer <- call (TokenizerFromPretrained (model args))
                 (tokenizer_from_pretrained w (model args)) ;;
  tokenized <- call (ChunkAndTokenize (ctx_len args))
                 (chunk_and_tokenize w dataset_ tokenizer (ctx_len args)) ;;
  tokenized <- shard_for_rank w ddp rank tokenized ;;
  with_ (output_gate rank) (gated_block w args tokenized model_).

(** Every event so far satisfies [P]. *)
Definition stays (P : Event -> Prop) (s s' : State) : Prop :=
  Forall P (trace s) -> Forall P (trace s').

(** The trace only grows. *)
Definition grows (s s' : State) : Prop := trace s `prefix_of` trace s'.

(** [sys.stdout] is bound as before. *)
Definition same_stdout (s s' : State) : Prop := sys_stdout s' = sys_stdout s.

(** Single-process runs: nothing of [torch.distributed], no device
    binding, no sharding; the model goes to ["cuda:0"]. *)
Definition single_process_event (ev : Event) : Prop :=
  match ev with
  | CudaSetDevice _ | InitProcessGroup _ | GetWorldSize | Shard _ _ => False
  | FromPretrained _ device_map _ _ _ => device_map = "cuda:0"
  | _ => True
  end.

(** Distributed runs: every call that takes a rank takes [rank]. *)
Definition uses_rank (w : World) (rank : Z) (ev : Event) : Prop :=
  match ev with
  | CudaSetDevice device => device = rank
  | InitProcessGroup backend => backend = "nccl"
  | FromPretrained _ device_map _ _ _ => device_map = "cuda:" +:+ str_of_int rank
  | Shard num_shards index => num_shards = get_world_size w /\ index = rank
  | _ => True
  end.

(** Every call that takes a configured value takes it from [args]. *)
Definition uses_config (w : World) (args : RunConfig) (ev : Event) : Prop :=
  match ev with
  | IsBf16Supported => load_in_8bit (base args) = false
  | FromPretrained name _ in_8bit torch_dtype token =>
      name = model args /\ in_8bit = load_in_8bit (base args) /\
      torch_dtype = precision_choice (load_in_8bit (base args)) (is_bf16_supported w) /\
      token = hf_token (base args)
  | LoadDataset path split_name _ => path = dataset args /\ split_name = split args
  | TokenizerFromPretrained name => name = model args
  | ChunkAndTokenize max_seq_len => max_seq_len = ctx_len args
  | TrainerInit args' _ _ => args' = args
  | _ => True
  end.

(** The events of the trainer. *)
Definition is_trainer_event (ev : Event) : bool := is_TrainerInit ev || is_TrainerFit ev.

Definition trainer_events (t : list Event) : list Event := List.filter is_trainer_event t.

(** Rank 5 announced to a world of four processes. *)
Definition world_rank_too_large : World :=
  sample_world (Some "5") 4 (sample_command_line false None) (sample_rows 10).

(** A text of whitespace only (the empty text included). *)
Fixpoint is_blank (text : string) : bool :=
  match text with
  | EmptyString => true
  | String c rest => PyInt.is_space c && is_blank rest
  end.

(** [LOCAL_RANK] set to the empty text. *)
Definition world_empty_rank : World :=
  sample_world (Some EmptyString) 2 (sample_command_line false None) (sample_rows 10).

(** What must have returned before a call is made: the command line
    before the model loader, the model loader before the dataset
    loader, the dataset loader before the tokenizer's, the tokenizer's
    before chunking, and all of them before the trainer is built. *)
Definition made_after_success (w : World) (ev : Event) : Prop :=
  match ev with
  | FromPretrained _ _ _ _ _ => exists args, parse_RunConfig (sys_argv w) = Ok args
  | LoadDataset _ _ _ =>
      exists args device torch_dtype m,
        parse_RunConfig (sys_argv w) = Ok args /\
        from_pretrained w (model args) device (load_in_8bit (base args)) torch_dtype
          (hf_token (base args)) = Ok m
  | TokenizerFromPretrained _ =>
      exists args raw,
        parse_RunConfig (sys_argv w) = Ok args /\
        load_dataset w (dataset args) (split args) true = Ok raw
  | ChunkAndTokenize _ =>
      exists args tokenizer,
        parse_RunConfig (sys_argv w) = Ok args /\
        tokenizer_from_pretrained w (model args) = Ok tokenizer
  | TrainerInit _ _ _ =>
      exists args device torch_dtype m raw tokenizer tokenized,
        parse_RunConfig (sys_argv w) = Ok args /\
        from_pretrained w (model args) device (load_in_8bit (base args)) torch_dtype
          (hf_token (base args)) = Ok m /\
        load_dataset w (dataset args) (split args) true = Ok raw /\
        tokenizer_from_pretrained w (model args) = Ok tokenizer /\
        chunk_and_tokenize w raw tokenizer (ctx_len args) = Ok tokenized
  | _ => True
  end.

(** Rank 1 of four processes, ten tokenized rows, with a [datasets]
    release whose [Dataset.shard] defaults to [contiguous=True]. *)
Definition world_of_four_contiguous : World :=
  {| os_environ := {[ "LOCAL_RANK" := "1" ]};
     sys_argv := sample_command_line false None;
     shard_contiguous_default := true;
     cuda_set_device := fun _ => Ok tt;
     init_process_group := fun _ => Ok tt;
     get_world_size := 4;
     is_bf16_supported := true;
     from_pretrained := fun name _ _ torch_dtype _ =>
       Ok {| model_id := name;
             model_dtype := match torch_dtype with
                            | TheDtype d => d
                            | DtypeAuto => float32
                            end |};
     load_dataset := fun _ _ _ => Ok ["first text"; "second text"];
     tokenizer_from_pretrained := fun name => Ok {| tokenizer_id := name |};
     chunk_and_tokenize := fun _ _ _ => Ok (sample_rows 10);
     SaeTrainer := fun _ _ _ => ([], Ok tt);
     fit := fun _ _ _ => ([], Ok tt) |}.

(** * Properties *)

Example int_examples :
  int "0" = Ok 0 /\ int "3" = Ok 3 /\ int " 12 " = Ok 12 /\ int "-1" = Ok (-1) /\
  int "+7" = Ok 7 /\ int "1_000" = Ok 1000 /\ int "007" = Ok 7 /\
  int "abc" = Raise (ValueError "abc") /\ int EmptyString = Raise (ValueError EmptyString) /\
  int "1__0" = Raise (ValueError "1__0") /\ int "1_" = Raise (ValueError "1_") /\
  int "_1" = Raise (ValueError "_1") /\ int "1.5" = Raise (ValueError "1.5") /\
  int "- 1" = Raise (ValueError "- 1").
Proof. repeat split; reflexivity. Qed.

Example str_of_int_examples :
  str_of_int 4 = "4" /\ str_of_int 0 = "0" /\ str_of_int (-2) = "-2" /\ str_of_int 2048 = "2048".
Proof. repeat split; reflexivity. Qed.

Example shard_examples :
  Datasets.shard [10;11;12;13;14;15;16;17;18;19] 4 0 false = Ok [10;14;18] /\
  Datasets.shard [10;11;12;13;14;15;16;17;18;19] 4 1 false = Ok [11;15;19] /\
  Datasets.shard [10;11;12;13;14;15;16;17;18;19] 4 2 false = Ok [12;16] /\
  Datasets.shard [10;11;12;13;14;15;16;17;18;19] 4 3 false = Ok [13;17] /\
  Datasets.shard [10;11;12;13;14;15;16;17;18;19] 4 0 true = Ok [10;11;12] /\
  Datasets.shard [10;11;12;13;14;15;16;17;18;19] 4 3 true = Ok [18;19] /\
  Datasets.shard [10;11] 4 3 false = Ok [] /\
  Datasets.shard [10;11] 4 4 false = Raise (ValueError "index should be in [0, num_shards-1]") /\
  Datasets.shard [10;11] 4 (-1) false = Raise (ValueError "index should be in [0, num_shards-1]").
Proof. repeat split; reflexivity. Qed.
(** ** Properties of [Dataset.select] and [Dataset.shard] *)
Section ShardFacts.

Context {A : Type}.
Implicit Types (ds rows : list A) (n W r : Z).

Import Datasets.

Lemma arange_count_bounds n W r :
  0 <= r < W -> n `div` W <= (n - r + W - 1) `div` W <= n `div` W + 1.
Proof.
  intros Hr. split.
  - apply Z.div_le_lower_bound; [lia|].
    pose proof (Z.mul_div_le n W). lia.
  - apply Z.lt_succ_r, Z.div_lt_upper_bound; [lia|].
    pose proof (Z.mul_succ_div_gt n W). lia.
Qed.

Lemma elem_of_arange n W r x :
  0 <= r < W -> x ∈ arange r n W <-> (0 <= x < n /\ x `mod` W = r).
Proof.
  intros Hr. unfold arange. rewrite list_elem_of_fmap.
  setoid_rewrite elem_of_seqZ. split.
  - intros (k & -> & Hk).
    assert (k + 1 <= (n - r + W - 1) `div` W) as Hle by lia.
    assert ((k + 1) * W <= n - r + W - 1).
    { etransitivity; [apply Z.mul_le_mono_nonneg_r; [lia|exact Hle]|].
      rewrite Z.mul_comm. apply Z.mul_div_le. lia. }
    split; [nia|].
    rewrite Z.mod_add by lia. apply Z.mod_small. lia.
  - intros (Hx & Hmod). exists (x `div` W).
    pose proof (Z.div_mod x W ltac:(lia)) as Hdm.
    split; [lia|]. split; [apply Z.div_pos; lia|].
    assert (x `div` W + 1 <= (n - r + W - 1) `div` W); [|lia].
    apply Z.div_le_lower_bound; [lia|]. nia.
Qed.

Lemma NoDup_arange n W r : 0 < W -> NoDup (arange r n W).
Proof.
  intros HW. unfold arange. apply NoDup_fmap_2_strong; [|apply NoDup_seqZ].
  intros k1 k2 _ _ Heq. nia.
Qed.

Lemma length_arange n W r :
  length (arange r n W) = Z.to_nat ((n - r + W - 1) `div` W).
Proof. unfold arange. by rewrite length_fmap, length_seqZ. Qed.

Lemma select_rows_in_range ds (indices : list Z) :
  Forall (fun i => 0 <= i < len ds) indices ->
  exists rows, select_rows ds indices = Ok rows /\
               Forall2 (fun i x => ds !! Z.to_nat i = Some x) indices rows.
Proof.
  induction 1 as [|i indices Hi _ (rows & Hrows & Hall)]; simpl.
  - exists []. split; [done|constructor].
  - unfold row_at. destruct (Z.leb_spec 0 i); [|lia].
    destruct (lookup_lt_is_Some_2 ds (Z.to_nat i)) as [x Hx]; [unfold len in Hi; lia|].
    rewrite Hx, Hrows. exists (x :: rows). split; [done|by constructor].
Qed.

Lemma select_in_range ds (indices : list Z) :
  Forall (fun i => 0 <= i < len ds) indices ->
  exists rows, select ds indices = Ok rows /\
               Forall2 (fun i x => ds !! Z.to_nat i = Some x) indices rows.
Proof.
  intros Hall. unfold select. destruct (Z.eqb_spec (len ds) 0) as [Hlen|_].
  - destruct Hall as [|i indices Hi _]; [|lia].
    exists ds. split; [done|]. destruct ds; [constructor|discriminate].
  - by apply select_rows_in_range.
Qed.

Lemma shard_indices_contiguous n W r :
  shard_indices n W r true = seqZ (block_start n W r) (block_start n W (r + 1) - block_start n W r).
Proof.
  unfold shard_indices, range, block_start. f_equal.
  destruct (Z.ltb_spec r (n `mod` W)); lia.
Qed.

Lemma block_start_0 n W : 0 < W -> block_start n W 0 = 0.
Proof.
  intros HW. unfold block_start. pose proof (Z.mod_pos_bound n W HW). lia.
Qed.

Lemma block_start_last n W : 0 < W -> block_start n W W = n.
Proof.
  intros HW. unfold block_start.
  pose proof (Z.mod_pos_bound n W HW). pose proof (Z.div_mod n W). lia.
Qed.

Lemma block_start_mono n W r r' :
  0 <= n -> 0 < W -> r <= r' -> block_start n W r <= block_start n W r'.
Proof.
  intros Hn HW Hr. unfold block_start.
  assert (0 <= n `div` W) by (apply Z.div_pos; lia). nia.
Qed.

Lemma block_size_bounds n W r :
  n `div` W <= block_start n W (r + 1) - block_start n W r <= n `div` W + 1.
Proof. unfold block_start. lia. Qed.

Lemma shard_indices_in_range n W r c :
  0 <= n -> 0 <= r < W -> Forall (fun i => 0 <= i < n) (shard_indices n W r c).
Proof.
  intros Hn Hr. apply Forall_forall. intros i. destruct c.
  - rewrite shard_indices_contiguous, elem_of_seqZ.
    pose proof (block_start_mono n W 0 r Hn ltac:(lia) ltac:(lia)) as H0.
    pose proof (block_start_mono n W (r + 1) W Hn ltac:(lia) ltac:(lia)) as H1.
    rewrite block_start_0 in H0 by lia. rewrite block_start_last in H1 by lia. lia.
  - unfold shard_indices. rewrite elem_of_arange by done. lia.
Qed.

Lemma Datasets_shard_in_range ds W r c :
  0 <= r < W ->
  exists rows, shard ds W r c = Ok rows /\
               Forall2 (fun i x => ds !! Z.to_nat i = Some x)
                       (shard_indices (len ds) W r c) rows.
Proof.
  intros Hr. unfold shard.
  destruct (Z.leb_spec 0 r); [|lia]. destruct (Z.ltb_spec r W); [|lia]. simpl.
  apply select_in_range, shard_indices_in_range; [unfold len|]; lia.
Qed.

Lemma Datasets_shard_out_of_range ds W r c :
  ~ (0 <= r < W) ->
  shard ds W r c = Raise (ValueError "index should be in [0, num_shards-1]").
Proof.
  intros Hr. unfold shard.
  destruct (Z.leb_spec 0 r); destruct (Z.ltb_spec r W); simpl; try done; lia.
Qed.

Lemma length_shard_indices n W r c :
  0 <= n -> 0 <= r < W ->
  n `div` W <= Z.of_nat (length (shard_indices n W r c)) <= n `div` W + 1.
Proof.
  intros Hn Hr.
  assert (0 <= n `div` W) by (apply Z.div_pos; lia).
  destruct c.
  - rewrite shard_indices_contiguous, length_seqZ.
    pose proof (block_size_bounds n W r). lia.
  - unfold shard_indices. rewrite length_arange.
    pose proof (arange_count_bounds n W r Hr). lia.
Qed.

Lemma shard_indices_disjoint n W r r' c i :
  0 <= n -> 0 <= r < W -> 0 <= r' < W ->
  i ∈ shard_indices n W r c -> i ∈ shard_indices n W r' c -> r = r'.
Proof.
  intros Hn Hr Hr'. destruct c.
  - rewrite !shard_indices_contiguous, !elem_of_seqZ. intros H1 H2.
    destruct (Z.lt_trichotomy r r') as [Hlt|[->|Hlt]]; [|done|].
    + pose proof (block_start_mono n W (r + 1) r' Hn ltac:(lia) ltac:(lia)). lia.
    + pose proof (block_start_mono n W (r' + 1) r Hn ltac:(lia) ltac:(lia)). lia.
  - unfold shard_indices. rewrite !elem_of_arange by done. lia.
Qed.

Lemma NoDup_shard_indices n W r c : 0 < W -> NoDup (shard_indices n W r c).
Proof.
  intros HW. destruct c.
  - rewrite shard_indices_contiguous. apply NoDup_seqZ.
  - by apply NoDup_arange.
Qed.

Lemma shard_indices_cover n W c i :
  0 < W -> 0 <= i < n -> exists r, 0 <= r < W /\ i ∈ shard_indices n W r c.
Proof.
  intros HW Hi. destruct c.
  - (* the blocks [block_start r, block_start (r+1)) tile [0, n) *)
    assert (forall k : nat, Z.of_nat k <= W -> i < block_start n W (Z.of_nat k) ->
              exists r, 0 <= r < Z.of_nat k /\ i ∈ shard_indices n W r true) as Htile.
    { induction k as [|k IH]; intros Hk Hlt.
      - simpl in Hlt. rewrite block_start_0 in Hlt by done. lia.
      - destruct (Z.lt_ge_cases i (block_start n W (Z.of_nat k))) as [Hlo|Hhi].
        + destruct (IH ltac:(lia) Hlo) as (r & Hr & Hin). exists r. split; [lia|done].
        + exists (Z.of_nat k). split; [lia|].
          rewrite shard_indices_contiguous, elem_of_seqZ.
          replace (Z.of_nat k + 1) with (Z.of_nat (S k)) by lia. lia. }
    destruct (Htile (Z.to_nat W)) as (r & Hr & Hin); [lia| |].
    + rewrite Z2Nat.id by lia. rewrite block_start_last by done. lia.
    + exists r. split; [lia|done].
  - exists (i `mod` W). pose proof (Z.mod_pos_bound i W HW).
    split; [done|]. unfold shard_indices. rewrite elem_of_arange by done. lia.
Qed.

(** The index lists of ranks [0 .. W-1], one after the other, hold
    every position of the dataset exactly once. *)
Lemma shard_indices_partition n W c :
  0 <= n -> 0 < W ->
  (seqZ 0 W ≫= fun r => shard_indices n W r c) ≡ₚ seqZ 0 n.
Proof.
  intros Hn HW. apply NoDup_Permutation.
  - apply NoDup_bind; [|intros; by apply NoDup_shard_indices|apply NoDup_seqZ].
    intros r r' i Hr%elem_of_seqZ Hr'%elem_of_seqZ. apply shard_indices_disjoint; lia.
  - apply NoDup_seqZ.
  - intros i. rewrite list_elem_of_bind, elem_of_seqZ. split.
    + intros (r & Hin & Hr%elem_of_seqZ).
      pose proof (shard_indices_in_range n W r c Hn ltac:(lia)) as Hall.
      rewrite Forall_forall in Hall. specialize (Hall i Hin). lia.
    + intros Hi. destruct (shard_indices_cover n W c i HW ltac:(lia)) as (r & Hr & Hin).
      exists r. split; [done|]. apply elem_of_seqZ. lia.
Qed.





End ShardFacts.

(** ** The trace of [run()] *)

Lemma console_app (t1 t2 : list Event) : console (t1 ++ t2) = console t1 ++ console t2.
Proof. apply omap_app. Qed.

Lemma calls_app (t1 t2 : list Event) : calls (t1 ++ t2) = calls t1 ++ calls t2.
Proof. apply List.filter_app. Qed.


Lemma console_shown out lines :
  console (shown out lines) = match out with Some _ => lines | None => [] end.
Proof.
  destruct out as [[]|]; [|done]. unfold shown, console.
  induction lines; [done|]. simpl. by f_equal.
Qed.

Lemma calls_shown out lines : calls (shown out lines) = [].
Proof. destruct out as [[]|]; [|done]. unfold shown. by induction lines. Qed.


Lemma print_eq line s :
  print line s = (Ok tt, {| trace := trace s ++ shown (sys_stdout s) [line];
                            sys_stdout := sys_stdout s |}).
Proof.
  unfold print, log. destruct s as [t [[]|]]; simpl; [done|].
  by rewrite app_nil_r.
Qed.

Lemma print_all_eq lines s :
  print_all lines s = (Ok tt, {| trace := trace s ++ shown (sys_stdout s) lines;
                                 sys_stdout := sys_stdout s |}).
Proof.
  revert s. induction lines as [|l lines IH]; intros s; simpl.
  - unfold ret. destruct s as [t [[]|]]; simpl; by rewrite app_nil_r.
  - unfold bind. rewrite print_eq, IH. simpl. f_equal. f_equal.
    destruct (sys_stdout s) as [[]|]; simpl; by rewrite <- ?app_assoc.
Qed.

Lemma call_printing_eq ev out s :
  call_printing ev out s =
  (snd out, {| trace := trace s ++ [ev] ++ shown (sys_stdout s) (fst out);
               sys_stdout := sys_stdout s |}).
Proof.
  unfold call_printing, bind, call, lift. rewrite print_all_eq. simpl.
  by rewrite <- app_assoc.
Qed.

Lemma gated_block_eq w args data m s :
  gated_block w args data m s =
  (gated_outcome w args data m,
   {| trace := trace s ++ gated_events w (sys_stdout s) args data m;
      sys_stdout := sys_stdout s |}).
Proof.
  unfold gated_block, gated_outcome, gated_events, bind.
  rewrite !print_eq. simpl. rewrite call_printing_eq. simpl.
  destruct (snd (SaeTrainer w args data m)) as [[]|e]; simpl.
  - rewrite call_printing_eq. simpl. f_equal. f_equal.
    destruct (sys_stdout s) as [[]|]; simpl; rewrite <- ?app_assoc; simpl; try done.
  - f_equal. f_equal.
    destruct (sys_stdout s) as [[]|]; simpl; rewrite <- ?app_assoc; simpl; by rewrite ?app_nil_r.
Qed.

Lemma run_stages (w : World) (s : State) :
  run w s = bind (acquire w) (handoff w) s.
Proof.
  unfold run, acquire, handoff, bind.
  destruct (topology w s) as [[[[local_rank ddp] rank]|e] s0]; [|done].
  destruct (init_distributed w local_rank ddp rank s0) as [[[]|e] s1]; [|done].
  destruct (call ParseArgs _ s1) as [[args|e] s2]; [|done].
  destruct (select_dtype w args s2) as [[dtype|e] s3]; [|done].
  destruct (call (FromPretrained _ _ _ _ _) _ s3) as [[m|e] s4]; [|done].
  destruct (call (LoadDataset _ _ _) _ s4) as [[raw|e] s5]; [|done].
  destruct (call (TokenizerFromPretrained _) _ s5) as [[tok|e] s6]; [|done].
  destruct (call (ChunkAndTokenize _) _ s6) as [[tokenized|e] s7]; [|done].
  done.
Qed.

Lemma select_dtype_eq (w : World) (args : RunConfig) (s : State) :
  select_dtype w args s =
  (Ok (precision_choice (load_in_8bit (base args)) (is_bf16_supported w)),
   if load_in_8bit (base args) then s else log IsBf16Supported s).
Proof.
  unfold select_dtype, precision_choice, bind, call, ret.
  destruct (load_in_8bit (base args)); [done|]. by destruct (is_bf16_supported w).
Qed.

Lemma topology_eq (w : World) (s : State) :
  topology w s =
  match os_environ w !! "LOCAL_RANK" with
  | None => (Ok (None, false, 0), s)
  | Some text =>
      match int text with
      | Ok rank => (Ok (Some text, true, rank), s)
      | Raise e => (Raise e, s)
      end
  end.
Proof.
  unfold topology, bind, lift, ret.
  destruct (os_environ w !! "LOCAL_RANK") as [text|]; simpl; [|done].
  by destruct (int text).
Qed.

(** When lines 37-74 complete, the values they produced and the state
    they left. *)
Lemma acquire_ok (w : World) (s s1 : State) ddp rank args tokenized m :
  acquire w s = (Ok (ddp, rank, args, tokenized, m), s1) ->
  sys_stdout s = Some Console ->
  ddp = is_not_None (os_environ w !! "LOCAL_RANK") /\
  (if ddp then int_of (os_environ w !! "LOCAL_RANK") = Ok rank else rank = 0) /\
  parse_RunConfig (sys_argv w) = Ok args /\
  from_pretrained w (model args) ("cuda:" +:+ str_of_int rank)
    (load_in_8bit (base args))
    (precision_choice (load_in_8bit (base args)) (is_bf16_supported w))
    (hf_token (base args)) = Ok m /\
  s1 = {| trace := trace s ++ acquire_events w ddp rank args; sys_stdout := Some Console |}.
Proof.
  intros Hacq Hout. unfold acquire, bind in Hacq.
  rewrite topology_eq in Hacq.
  destruct s as [t out]. simpl in Hout. subst out.
  unfold acquire_events, init_events.
  destruct (os_environ w !! "LOCAL_RANK") as [text|] eqn:Henv; simpl in Hacq.
  - destruct (int text) as [r|e] eqn:Hint; [|done].
    unfold init_distributed, bind, lift, int_of, call in Hacq. rewrite Hint in Hacq.
    destruct (cuda_set_device w r) as [[]|?]; [|done].
    destruct (init_process_group w "nccl") as [[]|?]; [|done].
    destruct (r =? 0) eqn:Hr0; unfold print, log in Hacq; simpl in Hacq.
    all: destruct (parse_RunConfig (sys_argv w)) as [a|?]; [|done].
    all: rewrite select_dtype_eq in Hacq.
    all: destruct (from_pretrained w _ _ _ _ _) as [m'|?] eqn:Hm; [|done].
    all: destruct (load_dataset w _ _ _) as [raw|?]; [|done].
    all: destruct (tokenizer_from_pretrained w _) as [tok|?]; [|done].
    all: destruct (chunk_and_tokenize w _ _ _) as [tk|?]; [|done].
    all: unfold ret in Hacq; simplify_eq.
    all: rewrite ?Hr0; split_and!; try done.
    all: destruct (load_in_8bit (base args)); unfold log; simpl; by rewrite <- ?app_assoc.
  - unfold init_distributed, call, ret, log in Hacq. simpl in Hacq.
    destruct (parse_RunConfig (sys_argv w)) as [a|?]; [|done].
    rewrite select_dtype_eq in Hacq.
    destruct (from_pretrained w _ _ _ _ _) as [m'|?] eqn:Hm; [|done].
    destruct (load_dataset w _ _ _) as [raw|?]; [|done].
    destruct (tokenizer_from_pretrained w _) as [tok|?]; [|done].
    destruct (chunk_and_tokenize w _ _ _) as [tk|?]; [|done].
    unfold ret in Hacq; simplify_eq. split_and!; try done.
    destruct (load_in_8bit (base args)); unfold log; simpl; by rewrite <- ?app_assoc.
Qed.

Lemma shard_for_rank_eq (w : World) (ddp : bool) (rank : Z) (tokenized : Dataset) s :
  shard_for_rank w ddp rank tokenized s =
  if ddp then
    (Datasets.shard tokenized (get_world_size w) rank (shard_contiguous_default w),
     {| trace := trace s ++ shard_events w true rank; sys_stdout := sys_stdout s |})
  else (Ok tokenized, s).
Proof.
  unfold shard_for_rank, bind, call, ret, log. destruct ddp; [|done]. simpl.
  by rewrite <- app_assoc.
Qed.

Lemma with_output_gate_eq {A} (body : M A) (rank : Z) (s : State) :
  with_ (output_gate rank) body s =
  if rank =? 0 then body s
  else (fst (body (set_stdout None s)),
        set_stdout (sys_stdout s) (snd (body (set_stdout None s)))).
Proof.
  unfold with_, output_gate. destruct (rank =? 0); [done|].
  by destruct (body (set_stdout None s)).
Qed.

(** The whole of [run()] when lines 37-76 complete. *)
Lemma run_ok (w : World) (s s1 : State) ddp rank args tokenized data m :
  acquire w s = (Ok (ddp, rank, args, tokenized, m), s1) ->
  fst (shard_for_rank w ddp rank tokenized s1) = Ok data ->
  sys_stdout s = Some Console ->
  run w s =
  (gated_outcome w args data m,
   {| trace := trace s ++ acquire_events w ddp rank args ++ shard_events w ddp rank ++
               gated_events w (if rank =? 0 then Some Console else None) args data m;
      sys_stdout := Some Console |}).
Proof.
  intros Hacq Hshard Hout. rewrite run_stages. unfold bind. rewrite Hacq.
  destruct (acquire_ok _ _ _ _ _ _ _ _ Hacq Hout) as (_ & _ & _ & _ & ->).
  unfold handoff, bind. rewrite shard_for_rank_eq in Hshard |- *.
  destruct ddp; cbn [fst] in Hshard; [rewrite Hshard|simplify_eq].
  all: rewrite with_output_gate_eq, !gated_block_eq.
  all: destruct (rank =? 0); unfold set_stdout, shard_events; cbn [trace sys_stdout fst snd].
  all: by rewrite <- ?app_assoc, ?app_nil_l.
Qed.

(** ** Blocks *)

Lemma Block_print_all lines : Block (print_all lines).
Proof. induction lines; simpl; repeat constructor; done. Qed.

Lemma Block_call_printing ev out :
  is_Printed ev = false -> Block (call_printing ev out).
Proof.
  intros Hev. unfold call_printing.
  constructor; [by constructor|intros _].
  constructor; [apply Block_print_all|intros _; constructor].
Qed.

Lemma Block_gated_block w args data m : Block (gated_block w args data m).
Proof.
  unfold gated_block.
  apply Block_bind; [apply Block_print|intros _].
  apply Block_bind; [apply Block_print|intros _].
  apply Block_bind; [by apply Block_call_printing|intros _].
  by apply Block_call_printing.
Qed.

(** A block leaves the binding of [sys.stdout] as it found it. *)
Lemma Block_stdout {A} (m : M A) (s : State) :
  Block m -> sys_stdout (snd (m s)) = sys_stdout s.
Proof.
  intros Hm. revert s.
  induction Hm as [A a|A e|A r|A ev r Hev|line|A B m k _ IHm _ IHk]; intros s; try done.
  - by rewrite print_eq.
  - unfold bind. specialize (IHm s). destruct (m s) as [[a|e] s']; simpl in *; [|done].
    by rewrite IHk.
Qed.

(** With [sys.stdout] unbound, a block adds nothing to the console. *)
Lemma Block_muted {A} (m : M A) (s : State) :
  Block m -> sys_stdout s = None -> console (trace (snd (m s))) = console (trace s).
Proof.
  intros Hm. revert s.
  induction Hm as [A a|A e|A r|A ev r Hev|line|A B m k Hm IHm _ IHk]; intros s Hs; try done.
  - unfold call, log. simpl. rewrite console_app.
    destruct ev; try done; simpl; by rewrite app_nil_r.
  - rewrite print_eq. simpl. rewrite Hs. simpl. by rewrite app_nil_r.
  - unfold bind. specialize (IHm s Hs). pose proof (Block_stdout m s Hm) as Hout.
    destruct (m s) as [[a|e] s']; simpl in *; [|done].
    rewrite IHk; [done|]. by rewrite Hout.
Qed.

(** The outcome of a block and the calls it makes do not depend on the
    state it starts from, in particular not on [sys.stdout]. *)
Lemma Block_oblivious {A} (m : M A) :
  Block m ->
  exists (r : Result A) (evs : list Event),
    forall s, fst (m s) = r /\ calls (trace (snd (m s))) = calls (trace s) ++ evs.
Proof.
  induction 1 as [A a|A e|A r|A ev r Hev|line|A B m k _ (rm & em & IHm) _ IHk].
  - exists (Ok a), []. intros s. by rewrite app_nil_r.
  - exists (Raise e), []. intros s. by rewrite app_nil_r.
  - exists r, []. intros s. by rewrite app_nil_r.
  - exists r, [ev]. intros s. unfold call, log. simpl. rewrite calls_app.
    unfold calls at 2. simpl. by rewrite Hev.
  - exists (Ok tt), []. intros s. rewrite print_eq. simpl.
    by rewrite calls_app, calls_shown.
  - destruct rm as [a|e].
    + destruct (IHk a) as (rk & ek & IHka). exists rk, (em ++ ek). intros s.
      unfold bind. destruct (IHm s) as [Hr Hc]. destruct (m s) as [[a'|e'] s']; simplify_eq/=.
      destruct (IHka s') as [Hr' Hc']. split; [done|]. by rewrite Hc', Hc, app_assoc.
    + exists (Raise e), em. intros s.
      unfold bind. destruct (IHm s) as [Hr Hc]. by destruct (m s) as [[a'|e'] s']; simplify_eq/=.
Qed.

(** ** The partition across ranks *)

Lemma shard_for_rank_distributed (w : World) (rank : Z) (tokenized : Dataset) (s : State) :
  fst (shard_for_rank w true rank tokenized s) =
  Datasets.shard tokenized (get_world_size w) rank (shard_contiguous_default w).
Proof. by rewrite shard_for_rank_eq. Qed.

(** C1.  In a distributed run over [W] processes, [1 <= W <= N], the
    shards that ranks [0 .. W-1] keep of a tokenized dataset of [N]
    rows are the rows at pairwise disjoint position lists; these lists
    together hold every position [0 .. N-1] exactly once; any two
    shards differ in size by at most one; and for [N = 10], [W = 4]
    rank 0 keeps 3 rows and ranks 1 to 3 keep 7 between them. *)
Theorem shards_partition_dataset (w : World) (tokenized : Dataset) (s : State) :
  1 <= get_world_size w <= Datasets.len tokenized ->
  let W := get_world_size w in
  let N := Datasets.len tokenized in
  let kept r := fst (shard_for_rank w true r tokenized s) in
  let positions r := Datasets.shard_indices N W r (shard_contiguous_default w) in
  (forall r, 0 <= r < W ->
     exists rows, kept r = Ok rows /\
       Forall2 (fun i row => tokenized !! Z.to_nat i = Some row) (positions r) rows) /\
  (forall r r' i, 0 <= r < W -> 0 <= r' < W ->
     i ∈ positions r -> i ∈ positions r' -> r = r') /\
  (seqZ 0 W ≫= positions) ≡ₚ seqZ 0 N /\
  (forall r r' rows rows', 0 <= r < W -> 0 <= r' < W ->
     kept r = Ok rows -> kept r' = Ok rows' ->
     Z.abs (Datasets.len rows - Datasets.len rows') <= 1) /\
  (N = 10 -> W = 4 ->
     exists rows0 rows1 rows2 rows3,
       kept 0 = Ok rows0 /\ kept 1 = Ok rows1 /\ kept 2 = Ok rows2 /\ kept 3 = Ok rows3 /\
       length rows0 = 3%nat /\
       (length rows1 + length rows2 + length rows3 = 7)%nat).
Proof.
  intros HW W N kept positions.
  assert (0 <= N) as HN by (unfold N, Datasets.len; lia).
  assert (forall r, 0 <= r < W ->
            exists rows, kept r = Ok rows /\
              Forall2 (fun i row => tokenized !! Z.to_nat i = Some row) (positions r) rows)
    as Hkept.
  { intros r Hr. unfold kept. rewrite shard_for_rank_distributed.
    by apply Datasets_shard_in_range. }
  assert (forall r rows, 0 <= r < W -> kept r = Ok rows ->
            length rows = length (positions r)) as Hlen.
  { intros r rows Hr Hrows. destruct (Hkept r Hr) as (rows' & Hrows' & Hall).
    rewrite Hrows in Hrows'. simplify_eq. symmetry. by eapply Forall2_length. }
  split_and!.
  - done.
  - intros r r' i Hr Hr'. by apply shard_indices_disjoint.
  - apply shard_indices_partition; lia.
  - intros r r' rows rows' Hr Hr' Hrows Hrows'. unfold Datasets.len.
    rewrite (Hlen r rows Hr Hrows), (Hlen r' rows' Hr' Hrows').
    pose proof (length_shard_indices N W r (shard_contiguous_default w) HN Hr).
    pose proof (length_shard_indices N W r' (shard_contiguous_default w) HN Hr').
    fold (positions r) in *. fold (positions r') in *. lia.
  - intros HN10 HW4.
    destruct (Hkept 0) as (rows0 & H0 & _); [lia|].
    destruct (Hkept 1) as (rows1 & H1 & _); [lia|].
    destruct (Hkept 2) as (rows2 & H2 & _); [lia|].
    destruct (Hkept 3) as (rows3 & H3 & _); [lia|].
    exists rows0, rows1, rows2, rows3. split_and!; try done.
    + rewrite (Hlen 0 rows0) by (done || lia). unfold positions. rewrite HN10, HW4.
      by destruct (shard_contiguous_default w).
    + rewrite (Hlen 1 rows1), (Hlen 2 rows2), (Hlen 3 rows3) by (done || lia).
      unfold positions. rewrite HN10, HW4. by destruct (shard_contiguous_default w).
Qed.

Lemma shards_partition_dataset_witness :
  1 <= get_world_size world_of_four <= Datasets.len (sample_rows 10) /\
  (seqZ 0 4 ≫= fun r =>
     Datasets.shard_indices 10 4 r (shard_contiguous_default world_of_four))
    ≡ₚ seqZ 0 10.
Proof.
  assert (1 <= get_world_size world_of_four <= Datasets.len (sample_rows 10)) as H
    by (vm_compute; split; discriminate).
  split; [exact H|].
  exact (proj1 (proj2 (proj2 (shards_partition_dataset world_of_four (sample_rows 10) initial H)))).
Defined.




Example strided_or_contiguous :
  fst (shard_for_rank world_of_four true 1 (sample_rows 10) initial) = Ok [[1]; [5]; [9]] /\
  fst (shard_for_rank world_of_four_contiguous true 1 (sample_rows 10) initial) =
    Ok [[3]; [4]; [5]].
Proof. split; reflexivity. Qed.

(** ** Precision selection *)

(** C2.  The dtype selected at lines 49-54 is the PrecisionChoice table
    applied to (8-bit flag, bf16 support): float16 whenever the flag is
    set, whatever the hardware; without the flag bfloat16 on bf16
    hardware and ["auto"] otherwise.  The selection never raises. *)
Theorem precision_selector (w : World) (args : RunConfig) (s : State) :
  fst (select_dtype w args s) =
    Ok (precision_choice (load_in_8bit (base args)) (is_bf16_supported w)) /\
  (load_in_8bit (base args) = true ->
     fst (select_dtype w args s) = Ok (TheDtype float16)) /\
  (load_in_8bit (base args) = false -> is_bf16_supported w = true ->
     fst (select_dtype w args s) = Ok (TheDtype bfloat16)) /\
  (load_in_8bit (base args) = false -> is_bf16_supported w = false ->
     fst (select_dtype w args s) = Ok DtypeAuto).
Proof.
  rewrite select_dtype_eq. simpl. split_and!; [done|..].
  - by intros ->.
  - by intros -> ->.
  - by intros -> ->.
Qed.

Lemma precision_selector_witness :
  fst (select_dtype world_8bit
         {| base := {| load_in_8bit := true; hf_token := None |};
            model := default_model; dataset := default_dataset;
            split := default_split; ctx_len := default_ctx_len |} initial)
  = Ok (TheDtype float16) /\
  fst (select_dtype world_single
         {| base := {| load_in_8bit := false; hf_token := None |};
            model := default_model; dataset := default_dataset;
            split := default_split; ctx_len := default_ctx_len |} initial)
  = Ok (TheDtype bfloat16).
Proof.
  split.
  - apply (proj1 (proj2 (precision_selector _ _ _))). reflexivity.
  - apply (proj1 (proj2 (proj2 (precision_selector _ _ _)))); reflexivity.
Defined.

(** ** Topology *)

Lemma arange_all n : 0 <= n -> Datasets.arange 0 n 1 = seqZ 0 n.
Proof.
  intros Hn. unfold Datasets.arange.
  replace ((n - 0 + 1 - 1) `div` 1) with n by (rewrite Z.div_1_r; lia).
  rewrite <- (list_fmap_id (seqZ 0 n)) at 2. apply list_fmap_ext.
  intros _ k _. simpl. lia.
Qed.

Lemma rows_at_all_positions {A} (ds rows : list A) :
  Forall2 (fun i row => ds !! Z.to_nat i = Some row) (seqZ 0 (Datasets.len ds)) rows ->
  rows = ds.
Proof.
  intros Hall. apply list_eq. intros i.
  destruct (decide (i < length ds)%nat) as [Hi|Hi].
  - assert (seqZ 0 (Datasets.len ds) !! i = Some (Z.of_nat i)) as Hseq.
    { by rewrite lookup_seqZ_lt by (unfold Datasets.len; lia). }
    destruct (Forall2_lookup_l _ _ _ _ _ Hall Hseq) as (row & Hrow & Hds).
    rewrite Nat2Z.id in Hds. by rewrite Hrow, Hds.
  - rewrite (lookup_ge_None_2 ds) by lia. apply lookup_ge_None_2.
    rewrite <- (Forall2_length _ _ _ Hall), length_seqZ. unfold Datasets.len. lia.
Qed.

(** One process holds the one shard of a world of size one: all
    rows, whichever way [shard] splits. *)
Lemma shard_of_one {A} (ds : list A) (contiguous : bool) :
  Datasets.shard ds 1 0 contiguous = Ok ds.
Proof.
  destruct (Datasets_shard_in_range ds 1 0 contiguous ltac:(lia))
    as (rows & -> & Hall).
  assert (Datasets.shard_indices (Datasets.len ds) 1 0 contiguous =
          seqZ 0 (Datasets.len ds)) as Hindices.
  { destruct contiguous.
    - rewrite shard_indices_contiguous, block_start_0 by lia.
      replace (0 + 1) with 1 by lia. rewrite block_start_last by lia.
      f_equal. lia.
    - apply arange_all. unfold Datasets.len. lia. }
  rewrite Hindices in Hall. f_equal. by apply rows_at_all_positions.
Qed.

(** C3.  Without [LOCAL_RANK] lines 37-39 yield [ddp = False] and
    [rank = 0], and the process keeps the whole tokenized dataset,
    which is the one shard of a world of size 1.  With [LOCAL_RANK] a
    non-negative integer literal (ASCII, within the interpreter's
    limit on digits) they yield [ddp = True] and the parsed integer as
    [rank]. *)
Theorem topology_detector (w : World) (s : State) :
  (os_environ w !! "LOCAL_RANK" = None ->
     topology w s = (Ok (None, false, 0), s) /\
     forall tokenized : Dataset,
       shard_for_rank w false 0 tokenized s = (Ok tokenized, s) /\
       forall contiguous, Datasets.shard tokenized 1 0 contiguous = Ok tokenized) /\
  (forall text rank,
     os_environ w !! "LOCAL_RANK" = Some text ->
     PyInt.in_domain text ->
     PyInt.parse text = Some rank -> 0 <= rank ->
     topology w s = (Ok (Some text, true, rank), s)).
Proof.
  split.
  - intros Henv. rewrite topology_eq, Henv. split; [done|].
    intros tokenized. split; [done|apply shard_of_one].
  - intros text rank Henv _ Hparse _. rewrite topology_eq, Henv. unfold int.
    by rewrite Hparse.
Qed.

Lemma topology_detector_witness :
  topology world_single initial = (Ok (None, false, 0), initial) /\
  topology world_rank3 initial = (Ok (Some "3", true, 3), initial).
Proof.
  split.
  - apply (proj1 (topology_detector world_single initial)). reflexivity.
  - apply (proj2 (topology_detector world_rank3 initial) "3" 3);
      [reflexivity|split; [reflexivity|by vm_compute]|reflexivity|lia].
Defined.

(** C4, as amended.  A [LOCAL_RANK] that is present is parsed by
    [int]: an ASCII text that is no integer literal makes [run()]
    raise [ValueError] at once, before any collaborator is called
    (empty trace), and nothing catches it; an ASCII text that is an
    integer literal within the interpreter's limit on digits is
    accepted whatever its sign and becomes [rank]. *)
Theorem rank_signal_parse (w : World) (text : string) :
  os_environ w !! "LOCAL_RANK" = Some text ->
  (PyInt.is_ascii text = true -> PyInt.parse text = None ->
     exec w = (Raise (ValueError text), initial)) /\
  (forall rank, PyInt.in_domain text -> PyInt.parse text = Some rank ->
     topology w initial = (Ok (Some text, true, rank), initial)).
Proof.
  intros Henv. split.
  - intros _ Hparse. unfold exec. rewrite run_stages. unfold bind, acquire, bind.
    rewrite topology_eq, Henv. unfold int. by rewrite Hparse.
  - intros rank _ Hparse. rewrite topology_eq, Henv. unfold int. by rewrite Hparse.
Qed.

Lemma rank_signal_parse_witness :
  exec world_bad_rank = (Raise (ValueError "abc"), initial) /\
  topology world_negative_rank initial = (Ok (Some "-1", true, -1), initial).
Proof.
  split.
  - apply (proj1 (rank_signal_parse world_bad_rank "abc" eq_refl)); reflexivity.
  - apply (proj2 (rank_signal_parse world_negative_rank "-1" eq_refl));
      [split; [reflexivity|by vm_compute]|reflexivity].
Defined.

(** C4 as stated fails: ["-1"] is no non-negative integer, yet it is
    parsed, [rank] becomes [-1], and [run()] goes on to bind the
    device, join the process group, read the command line and call
    the model loader with the device ["cuda:-1"]. *)
Lemma negative_rank_not_rejected :
  os_environ world_negative_rank !! "LOCAL_RANK" = Some "-1" /\
  ~ (exists z, PyInt.parse "-1" = Some z /\ 0 <= z) /\
  topology world_negative_rank initial = (Ok (Some "-1", true, -1), initial) /\
  trace (snd (exec world_negative_rank)) =
    [CudaSetDevice (-1); InitProcessGroup "nccl"; ParseArgs; IsBf16Supported;
     FromPretrained default_model "cuda:-1" false (TheDtype bfloat16) None] /\
  occurrences is_access (trace (snd (exec world_negative_rank))) = 1%nat.
Proof.
  split_and!; try reflexivity.
  intros (z & Hz & Hpos). vm_compute in Hz. simplify_eq. lia.
Qed.

(** ** Relations kept by every step *)

Section Respects.

Variable R : State -> State -> Prop.
Hypothesis R_refl : forall s, R s s.
Hypothesis R_trans : forall s1 s2 s3, R s1 s2 -> R s2 s3 -> R s1 s3.

Lemma respects_ret {A} (a : A) : respects R (ret a).
Proof. intros s. apply R_refl. Qed.

Lemma respects_raise {A} (e : Exc) : respects R (@raise A e).
Proof. intros s. apply R_refl. Qed.

Lemma respects_lift {A} (r : Result A) : respects R (lift r).
Proof. intros s. apply R_refl. Qed.

Lemma respects_bind {A B} (m : M A) (k : A -> M B) :
  respects R m -> (forall a, respects R (k a)) -> respects R (bind m k).
Proof.
  intros Hm Hk s. unfold bind. specialize (Hm s).
  destruct (m s) as [[a|e] s']; simpl in *; [|done].
  eapply R_trans; [exact Hm|apply Hk].
Qed.

Lemma respects_if {A} (b : bool) (m1 m2 : M A) :
  respects R m1 -> respects R m2 -> respects R (if b then m1 else m2).
Proof. by destruct b. Qed.

End Respects.

Lemma stays_trusting_refl s : stays_trusting s s.
Proof. by intros ?. Qed.

Lemma stays_trusting_trans s1 s2 s3 :
  stays_trusting s1 s2 -> stays_trusting s2 s3 -> stays_trusting s1 s3.
Proof. unfold stays_trusting. auto. Qed.

Lemma trusting_call {A} ev (r : Result A) :
  allows_remote_code ev -> respects stays_trusting (call ev r).
Proof.
  intros Hev s Hs. unfold call, log, trusting. simpl.
  apply Forall_app. split; [done|by constructor].
Qed.

Lemma trusting_shown out lines : trusting (shown out lines).
Proof.
  destruct out as [[]|]; [|constructor]. unfold shown, trusting.
  apply Forall_fmap, Forall_forall. done.
Qed.

Lemma trusting_print line : respects stays_trusting (print line).
Proof.
  intros s Hs. rewrite print_eq. simpl.
  apply Forall_app. split; [done|apply trusting_shown].
Qed.

Lemma trusting_gated_block w args data m :
  respects stays_trusting (gated_block w args data m).
Proof.
  intros s Hs. rewrite gated_block_eq. simpl. unfold gated_events.
  unfold trusting. rewrite !Forall_app. split_and!; try done.
  - apply trusting_shown.
  - by repeat constructor.
  - apply trusting_shown.
  - destruct (is_Ok _); [|constructor].
    apply Forall_app. split; [by repeat constructor|apply trusting_shown].
Qed.

Lemma trusting_with {A} cm (body : M A) :
  respects stays_trusting body -> respects stays_trusting (with_ cm body).
Proof.
  intros Hbody s Hs. unfold with_. destruct cm as [|target]; [by apply Hbody|].
  specialize (Hbody (set_stdout target s) Hs).
  by destruct (body (set_stdout target s)).
Qed.

(** Whatever happens in a run, every dataset load it issued allowed
    remote code. *)
Lemma run_trusting (w : World) : respects stays_trusting (run w).
Proof.
  pose proof stays_trusting_refl as Hrefl. pose proof stays_trusting_trans as Htrans.
  unfold run, topology, init_distributed, select_dtype, shard_for_rank.
  repeat first
    [ apply trusting_gated_block
    | apply trusting_print
    | apply trusting_with
    | apply trusting_call; done
    | apply respects_ret; exact Hrefl
    | apply respects_lift; exact Hrefl
    | apply respects_if
    | match goal with |- respects _ (let '(_, _) := ?x in _) => destruct x end
    | apply respects_bind; [exact Htrans| |intros ?] ].
Qed.

(** ** Configuration *)

(** When the command line is rejected, [run()] raises before any model
    or dataset access and before the trainer is built. *)
Lemma run_parse_failure (w : World) (e : Exc) :
  parse_RunConfig (sys_argv w) = Raise e ->
  (exists e', fst (exec w) = Raise e') /\
  occurrences is_access (trace (snd (exec w))) = 0%nat /\
  occurrences is_TrainerInit (trace (snd (exec w))) = 0%nat.
Proof.
  intros Hparse. unfold exec. rewrite run_stages. unfold bind, acquire, bind.
  rewrite topology_eq.
  destruct (os_environ w !! "LOCAL_RANK") as [text|]; simpl.
  - destruct (int text) as [r|e0] eqn:Hint; [|by eauto].
    unfold init_distributed, bind, lift, int_of, call. rewrite Hint.
    destruct (cuda_set_device w r) as [[]|?]; [|by eauto].
    destruct (init_process_group w "nccl") as [[]|?]; [|by eauto].
    destruct (r =? 0); simpl; rewrite Hparse; by eauto.
  - unfold call. rewrite Hparse. by eauto.
Qed.

(** C7, as amended.  A supplied [ctx_len] is validated for type only:
    an ASCII text that is no integer literal makes [parse(RunConfig)]
    fail, [run()] then raises before any model or dataset access and
    before the trainer is built, so no configuration is exposed; an
    ASCII text that is an integer literal within the interpreter's
    limit on digits is accepted whatever its sign or size and becomes
    [ctx_len] unchanged. *)
Theorem ctx_len_validation (w : World) (text : string) :
  cli_ctx_len (sys_argv w) = Some text ->
  (PyInt.is_ascii text = true -> PyInt.parse text = None ->
     (exists e, parse_RunConfig (sys_argv w) = Raise e) /\
     (exists e, fst (exec w) = Raise e) /\
     occurrences is_access (trace (snd (exec w))) = 0%nat /\
     occurrences is_TrainerInit (trace (snd (exec w))) = 0%nat) /\
  (forall b n,
     cli_base (sys_argv w) = Ok b ->
     PyInt.in_domain text -> PyInt.parse text = Some n ->
     exists args, parse_RunConfig (sys_argv w) = Ok args /\
                  ctx_len args = n /\ base args = b).
Proof.
  intros Hctx. split.
  - intros _ Hparse.
    assert (exists e, parse_RunConfig (sys_argv w) = Raise e) as [e He].
    { unfold parse_RunConfig, int. rewrite Hctx, Hparse.
      destruct (cli_base (sys_argv w)); eauto. }
    split; [by eauto|]. by apply (run_parse_failure w e).
  - intros b n Hbase _ Hparse. unfold parse_RunConfig, int. rewrite Hctx, Hparse, Hbase.
    by eauto.
Qed.

Lemma ctx_len_validation_witness :
  (exists e, fst (exec world_bad_ctx) = Raise e) /\
  (exists args, parse_RunConfig (sys_argv world_zero_ctx) = Ok args /\
                ctx_len args = 0 /\
                base args = {| load_in_8bit := false; hf_token := None |}).
Proof.
  split.
  - apply (proj1 (ctx_len_validation world_bad_ctx "abc" eq_refl)); reflexivity.
  - apply (proj2 (ctx_len_validation world_zero_ctx "0" eq_refl));
      [reflexivity|split; [reflexivity|by vm_compute]|reflexivity].
Defined.

(** C7 as stated fails: [--ctx_len 0] and [--ctx_len -5] are accepted,
    and with [ctx_len = 0] the run goes through to [fit]. *)
Lemma nonpositive_ctx_len_accepted :
  parse_RunConfig (sample_command_line false (Some "0")) =
    Ok {| base := {| load_in_8bit := false; hf_token := None |};
          model := default_model; dataset := default_dataset;
          split := default_split; ctx_len := 0 |} /\
  parse_RunConfig (sample_command_line false (Some "-5")) =
    Ok {| base := {| load_in_8bit := false; hf_token := None |};
          model := default_model; dataset := default_dataset;
          split := default_split; ctx_len := -5 |} /\
  fst (exec world_zero_ctx) = Ok tt /\
  calls (trace (snd (exec world_zero_ctx))) =
    [ParseArgs; IsBf16Supported;
     FromPretrained default_model "cuda:0" false (TheDtype bfloat16) None;
     LoadDataset default_dataset default_split true;
     TokenizerFromPretrained default_model;
     ChunkAndTokenize 0;
     TrainerInit {| base := {| load_in_8bit := false; hf_token := None |};
                    model := default_model; dataset := default_dataset;
                    split := default_split; ctx_len := 0 |}
                 (sample_rows 10)
                 {| model_id := default_model; model_dtype := bfloat16 |};
     TrainerFit].
Proof. split_and!; reflexivity. Qed.

(** ** Dataset loading *)

Lemma handoff_extends (w : World) v (s : State) :
  exists evs, trace (snd (handoff w v s)) = trace s ++ evs.
Proof.
  destruct v as [[[[ddp rank] args] tokenized] m]. unfold handoff, bind.
  rewrite shard_for_rank_eq. destruct ddp.
  - destruct (Datasets.shard _ _ _ _) as [data|e]; [|by eauto].
    rewrite with_output_gate_eq, !gated_block_eq.
    destruct (rank =? 0); simpl; rewrite <- app_assoc; by eauto.
  - rewrite with_output_gate_eq, !gated_block_eq.
    destruct (rank =? 0); simpl; by eauto.
Qed.

(** C8, as amended.  Remote code execution is always permitted: every
    dataset load a run issues passes [trust_remote_code=True], whatever
    the configuration; only the dataset identifier and the split come
    from the configuration. *)
Theorem dataset_load_trusts_remote_code (w : World) :
  Forall allows_remote_code (trace (snd (exec w))) /\
  (forall ddp rank args tokenized m s1,
     acquire w initial = (Ok (ddp, rank, args, tokenized, m), s1) ->
     LoadDataset (dataset args) (split args) true ∈ trace (snd (exec w))).
Proof.
  split.
  - apply (run_trusting w initial). constructor.
  - intros ddp rank args tokenized m s1 Hacq. unfold exec. rewrite run_stages.
    unfold bind. rewrite Hacq.
    destruct (acquire_ok _ _ _ _ _ _ _ _ Hacq eq_refl) as (_ & _ & _ & _ & ->).
    destruct (handoff_extends w (ddp, rank, args, tokenized, m)
                {| trace := trace initial ++ acquire_events w ddp rank args;
                   sys_stdout := Some Console |}) as (evs & ->).
    simpl. unfold acquire_events. rewrite !elem_of_app. left. right. right. right.
    apply list_elem_of_further, list_elem_of_here.
Qed.

Lemma dataset_load_trusts_remote_code_witness :
  LoadDataset default_dataset default_split true ∈ trace (snd (exec world_single)).
Proof.
  apply (proj2 (dataset_load_trusts_remote_code world_single)
           false 0
           {| base := {| load_in_8bit := false; hf_token := None |};
              model := default_model; dataset := default_dataset;
              split := default_split; ctx_len := default_ctx_len |}
           (sample_rows 10)
           {| model_id := default_model; model_dtype := bfloat16 |}
           (snd (acquire world_single initial))).
  reflexivity.
Defined.

(** C8 as stated fails: no configuration, environment or collaborator
    behaviour makes a run load the dataset with remote code disallowed;
    the flag is the constant [True] of line 69. *)
Lemma remote_code_not_configurable :
  ~ exists w path split_name,
      LoadDataset path split_name false ∈ trace (snd (exec w)).
Proof.
  intros (w & path & split_name & Hin).
  assert (trusting (trace (snd (run w initial)))) as Htrust
    by (apply (run_trusting w initial); constructor).
  unfold trusting in Htrust. rewrite Forall_forall in Htrust.
  by specialize (Htrust _ Hin).
Qed.

(** ** The output gate *)

Lemma output_gate_muted {A} (body : M A) (rank : Z) (s : State) :
  Block body -> rank <> 0 ->
  console (trace (snd (with_ (output_gate rank) body s))) = console (trace s).
Proof.
  intros Hbody Hrank. rewrite with_output_gate_eq.
  destruct (Z.eqb_spec rank 0) as [|_]; [done|]. simpl.
  by rewrite (Block_muted body (set_stdout None s)).
Qed.

(** C6.  For a block run under the gate of line 79, entered with
    [sys.stdout] bound to the console: on rank 0 the gated block is the
    block itself; on any other rank nothing it prints reaches the
    console, neither during the block nor afterwards (a later [print]
    shows its own line only); the outcome, an exception included, and
    the calls made are those of the ungated block; and on leaving the
    scope, normally or through an exception, [sys.stdout] is bound to
    the console again. *)
Theorem output_gate_scope {A} (body : M A) (rank : Z) (s : State) :
  Block body -> sys_stdout s = Some Console ->
  (rank = 0 -> with_ (output_gate rank) body s = body s) /\
  (rank <> 0 ->
     console (trace (snd (with_ (output_gate rank) body s))) = console (trace s)) /\
  (rank <> 0 -> forall line,
     console (trace (snd (print line (snd (with_ (output_gate rank) body s))))) =
     console (trace s) ++ [line]) /\
  fst (with_ (output_gate rank) body s) = fst (body s) /\
  (forall e, fst (body s) = Raise e -> fst (with_ (output_gate rank) body s) = Raise e) /\
  calls (trace (snd (with_ (output_gate rank) body s))) = calls (trace (snd (body s))) /\
  sys_stdout (snd (with_ (output_gate rank) body s)) = Some Console.
Proof.
  intros Hbody Hout.
  destruct (Block_oblivious body Hbody) as (r & evs & Hobl).
  assert (fst (with_ (output_gate rank) body s) = fst (body s)) as Hfst.
  { rewrite with_output_gate_eq. destruct (rank =? 0); [done|]. simpl.
    destruct (Hobl s) as [-> _]. by destruct (Hobl (set_stdout None s)) as [-> _]. }
  assert (sys_stdout (snd (with_ (output_gate rank) body s)) = Some Console) as Hrestored.
  { rewrite with_output_gate_eq. destruct (rank =? 0); [|done].
    by rewrite Block_stdout. }
  split_and!.
  - intros ->. by rewrite with_output_gate_eq.
  - intros Hrank. by apply output_gate_muted.
  - intros Hrank line. rewrite print_eq. simpl. rewrite Hrestored, console_app. simpl.
    by rewrite output_gate_muted.
  - done.
  - intros e He. by rewrite Hfst.
  - rewrite with_output_gate_eq. destruct (rank =? 0); [done|]. simpl.
    destruct (Hobl s) as [_ ->]. by destruct (Hobl (set_stdout None s)) as [_ ->].
  - done.
Qed.

Lemma output_gate_scope_witness :
  console (trace (snd (with_ (output_gate 3)
                         (gated_block world_rank3
                            {| base := {| load_in_8bit := false; hf_token := None |};
                               model := default_model; dataset := default_dataset;
                               split := default_split; ctx_len := default_ctx_len |}
                            (sample_rows 2)
                            {| model_id := default_model; model_dtype := bfloat16 |})
                         initial))) = [] /\
  with_ (output_gate 0)
    (gated_block world_single
       {| base := {| load_in_8bit := false; hf_token := None |};
          model := default_model; dataset := default_dataset;
          split := default_split; ctx_len := default_ctx_len |}
       (sample_rows 2)
       {| model_id := default_model; model_dtype := bfloat16 |})
    initial
  = gated_block world_single
       {| base := {| load_in_8bit := false; hf_token := None |};
          model := default_model; dataset := default_dataset;
          split := default_split; ctx_len := default_ctx_len |}
       (sample_rows 2)
       {| model_id := default_model; model_dtype := bfloat16 |}
       initial.
Proof.
  split.
  - apply (proj1 (proj2 (output_gate_scope _ 3 initial (Block_gated_block _ _ _ _) eq_refl))).
    lia.
  - apply (proj1 (output_gate_scope _ 0 initial (Block_gated_block _ _ _ _) eq_refl)).
    reflexivity.
Defined.

(** ** Console output of a run *)

Lemma quiet_refl s : quiet s s.
Proof. done. Qed.

Lemma quiet_trans s1 s2 s3 : quiet s1 s2 -> quiet s2 s3 -> quiet s1 s3.
Proof. unfold quiet. congruence. Qed.

Lemma quiet_call {A} ev (r : Result A) : is_Printed ev = false -> respects quiet (call ev r).
Proof.
  intros Hev s. unfold quiet, call, log. simpl. rewrite console_app.
  destruct ev; try done; simpl; by rewrite app_nil_r.
Qed.

Lemma quiet_gate w rank args data m :
  rank <> 0 -> respects quiet (with_ (output_gate rank) (gated_block w args data m)).
Proof. intros Hrank s. apply output_gate_muted; [apply Block_gated_block|done]. Qed.

(** A process whose rank is not 0 prints nothing, however the run
    ends. *)
Lemma nonzero_rank_silent (w : World) (text : string) (rank : Z) :
  os_environ w !! "LOCAL_RANK" = Some text -> int text = Ok rank -> rank <> 0 ->
  console (trace (snd (exec w))) = [].
Proof.
  intros Henv Hint Hrank.
  pose proof quiet_refl as Hrefl. pose proof quiet_trans as Htrans.
  unfold exec, run. unfold bind at 1. rewrite topology_eq, Henv, Hint. cbv beta iota.
  match goal with
  | |- console (trace (snd (?m initial))) = [] =>
      change (quiet initial (snd (m initial))); generalize initial;
      change (respects quiet m)
  end.
  unfold init_distributed, select_dtype, shard_for_rank.
  rewrite (proj2 (Z.eqb_neq rank 0) Hrank).
  repeat first
    [ apply quiet_gate; done
    | apply quiet_call; done
    | apply respects_ret; exact Hrefl
    | apply respects_lift; exact Hrefl
    | apply respects_if
    | apply respects_bind; [exact Htrans| |intros ?] ].
Qed.

Lemma console_acquire_events w ddp rank args :
  console (acquire_events w ddp rank args) =
  if ddp && (rank =? 0) then [announcement w] else [].
Proof.
  unfold acquire_events, init_events.
  destruct ddp, (rank =? 0), (load_in_8bit (base args)); reflexivity.
Qed.

Lemma console_gated_events w out args data m :
  console (gated_events w out args data m) =
  match out with
  | Some _ => [training_line args; storing_line m] ++ trainer_lines w args data m
  | None => []
  end.
Proof.
  unfold gated_events, trainer_lines. rewrite !console_app, !console_shown.
  destruct (is_Ok _); rewrite ?console_app, ?console_shown; by destruct out.
Qed.

(** C5.  When lines 37-76 complete, the console shows, on rank 0 and
    in this order, the world-size announcement (distributed runs
    only), the training line, the storing line, then whatever the
    trainer prints; the storing line shows the dtype of the handle the
    loader returned, which is float16 under 8-bit quantization when
    the loader keeps the float16 it was asked for.  A process of
    non-zero rank prints nothing at all, however its run ends. *)
Theorem console_output_order (w : World) :
  (forall ddp rank args tokenized data m s1,
     acquire w initial = (Ok (ddp, rank, args, tokenized, m), s1) ->
     fst (shard_for_rank w ddp rank tokenized s1) = Ok data ->
     console (trace (snd (exec w))) =
       (if rank =? 0 then
          (if ddp then [announcement w] else []) ++
          [training_line args; storing_line m] ++ trainer_lines w args data m
        else []) /\
     from_pretrained w (model args) ("cuda:" +:+ str_of_int rank)
       (load_in_8bit (base args))
       (precision_choice (load_in_8bit (base args)) (is_bf16_supported w))
       (hf_token (base args)) = Ok m /\
     (load_in_8bit (base args) = true ->
      (forall name device token m',
         from_pretrained w name device true (TheDtype float16) token = Ok m' ->
         model_dtype m' = float16) ->
      storing_line m = "Storing model weights in torch.float16")) /\
  (forall text rank,
     os_environ w !! "LOCAL_RANK" = Some text -> int text = Ok rank -> rank <> 0 ->
     console (trace (snd (exec w))) = []).
Proof.
  split; [|apply nonzero_rank_silent].
  intros ddp rank args tokenized data m s1 Hacq Hshard.
  destruct (acquire_ok _ _ _ _ _ _ _ _ Hacq eq_refl) as (_ & _ & _ & Hm & Hs1).
  split_and!.
  - unfold exec. rewrite (run_ok w initial s1 ddp rank args tokenized data m Hacq Hshard eq_refl).
    simpl. rewrite !console_app, console_acquire_events, console_gated_events.
    replace (console (shard_events w ddp rank)) with (@nil string) by (by destruct ddp).
    destruct ddp, (rank =? 0); done.
  - done.
  - intros H8 Hloader. rewrite H8 in Hm. simpl in Hm.
    unfold storing_line. by rewrite (Hloader _ _ _ _ Hm).
Qed.

Lemma console_output_order_witness :
  console (trace (snd (exec world_8bit))) =
    ["Using DDP across 2 GPUs.";
     "Training on 'togethercomputer/RedPajama-Data-1T-Sample' (split 'train')";
     "Storing model weights in torch.float16";
     "step 1"; "step 2"] /\
  storing_line {| model_id := default_model; model_dtype := float16 |} =
    "Storing model weights in torch.float16" /\
  console (trace (snd (exec world_rank3))) = [].
Proof.
  split_and!.
  - apply (proj1 (proj1 (console_output_order world_8bit)
                    true 0
                    {| base := {| load_in_8bit := true; hf_token := None |};
                       model := default_model; dataset := default_dataset;
                       split := default_split; ctx_len := default_ctx_len |}
                    (sample_rows 10)
                    [[0]; [2]; [4]; [6]; [8]]
                    {| model_id := default_model; model_dtype := float16 |}
                    (snd (acquire world_8bit initial))
                    eq_refl eq_refl)).
  - apply (proj2 (proj2 (proj1 (console_output_order world_8bit)
                    true 0
                    {| base := {| load_in_8bit := true; hf_token := None |};
                       model := default_model; dataset := default_dataset;
                       split := default_split; ctx_len := default_ctx_len |}
                    (sample_rows 10)
                    [[0]; [2]; [4]; [6]; [8]]
                    {| model_id := default_model; model_dtype := float16 |}
                    (snd (acquire world_8bit initial))
                    eq_refl eq_refl))); [reflexivity|].
    intros name device token m' Hm'. injection Hm' as <-. reflexivity.
  - apply (proj2 (console_output_order world_rank3) "3" 3); [reflexivity..|lia].
Defined.

(** ** More processes than rows *)





Example few_rows_run :
  fst (exec world_few_rows) = Ok tt /\
  calls (trace (snd (exec world_few_rows))) =
    [CudaSetDevice 3; InitProcessGroup "nccl"; ParseArgs; IsBf16Supported;
     FromPretrained default_model "cuda:3" false (TheDtype bfloat16) None;
     LoadDataset default_dataset default_split true;
     TokenizerFromPretrained default_model;
     ChunkAndTokenize 2048; GetWorldSize; Shard 4 3;
     TrainerInit {| base := {| load_in_8bit := false; hf_token := None |};
                    model := default_model; dataset := default_dataset;
                    split := default_split; ctx_len := default_ctx_len |}
                 [] {| model_id := default_model; model_dtype := bfloat16 |};
     TrainerFit].
Proof. split; reflexivity. Qed.

(** The storing line shows the dtype of the handle, not the request:
    asked for ["auto"], the loader returns a float32 handle. *)
Example storing_line_shows_handle_dtype :
  calls (trace (snd (exec world_no_bf16))) !! 2%nat =
    Some (FromPretrained default_model "cuda:0" false DtypeAuto None) /\
  console (trace (snd (exec world_no_bf16))) =
    ["Training on 'togethercomputer/RedPajama-Data-1T-Sample' (split 'train')";
     "Storing model weights in torch.float32"].
Proof. split; reflexivity. Qed.

(** Scenario A: no rank signal, ten tokenized rows: no sharding, the
    trainer receives all ten. *)
Example single_process_run :
  fst (exec world_single) = Ok tt /\
  calls (trace (snd (exec world_single))) =
    [ParseArgs; IsBf16Supported;
     FromPretrained default_model "cuda:0" false (TheDtype bfloat16) None;
     LoadDataset default_dataset default_split true;
     TokenizerFromPretrained default_model;
     ChunkAndTokenize 2048;
     TrainerInit {| base := {| load_in_8bit := false; hf_token := None |};
                    model := default_model; dataset := default_dataset;
                    split := default_split; ctx_len := default_ctx_len |}
                 (sample_rows 10)
                 {| model_id := default_model; model_dtype := bfloat16 |};
     TrainerFit].
Proof. split; reflexivity. Qed.

(** * Further properties of [run()] *)

Lemma run_run_from (w : World) (s : State) :
  run w s =
  match os_environ w !! "LOCAL_RANK" with
  | None => run_from w None false 0 s
  | Some text =>
      match int text with
      | Ok rank => run_from w (Some text) true rank s
      | Raise e => (Raise e, s)
      end
  end.
Proof.
  unfold run. unfold bind at 1. rewrite topology_eq.
  destruct (os_environ w !! "LOCAL_RANK") as [text|]; [|done].
  by destruct (int text).
Qed.

Section StepRules.

Variable R : State -> State -> Prop.
Hypothesis R_refl : forall s, R s s.
Hypothesis R_trans : forall s1 s2 s3, R s1 s2 -> R s2 s3 -> R s1 s3.

(** Sequencing after a call whose outcome is known to the rest. *)
Lemma respects_bind_call {A B} (ev : Event) (r : Result A) (k : A -> M B) :
  (forall s, R s (log ev s)) ->
  (forall a, r = Ok a -> respects R (k a)) ->
  respects R (bind (call ev r) k).
Proof.
  intros Hev Hk s. unfold bind, call. destruct r as [a|e]; simpl; [|apply Hev].
  eapply R_trans; [apply Hev|by apply Hk].
Qed.

Lemma respects_call {A} (ev : Event) (r : Result A) :
  (forall s, R s (log ev s)) -> respects R (call ev r).
Proof. intros Hev s. apply Hev. Qed.

End StepRules.

(** Steps through a chain of [run()] for a relation [R] given its
    rules for the primitives. *)
Ltac run_steps Hrefl Htrans Hlog Hprint Hwith Hgated :=
  repeat first
    [ apply Hgated
    | apply Hprint
    | apply Hwith
    | apply respects_call; intros ?; apply Hlog
    | apply respects_ret; apply Hrefl
    | apply respects_lift; apply Hrefl
    | apply respects_bind; [apply Htrans| |intros ?]
    | apply respects_if ].

(** ** Properties of every event of a run *)

Section Stays.

Variable P : Event -> Prop.

Lemma stays_refl s : stays P s s.
Proof. by intros ?. Qed.

Lemma stays_trans s1 s2 s3 : stays P s1 s2 -> stays P s2 s3 -> stays P s1 s3.
Proof. unfold stays. auto. Qed.

Lemma stays_log ev s : P ev -> stays P s (log ev s).
Proof. intros Hev Hs. unfold log. simpl. apply Forall_app. split; [done|by constructor]. Qed.

Lemma stays_call {A} ev (r : Result A) : P ev -> respects (stays P) (call ev r).
Proof. intros Hev s. by apply stays_log. Qed.

Lemma stays_shown out lines : (forall line, P (Printed line)) -> Forall P (shown out lines).
Proof.
  intros HP. destruct out as [[]|]; [|constructor]. unfold shown.
  apply Forall_fmap, Forall_forall. intros line _. apply HP.
Qed.

Lemma stays_print line : (forall l, P (Printed l)) -> respects (stays P) (print line).
Proof.
  intros HP s Hs. rewrite print_eq. simpl.
  apply Forall_app. split; [done|by apply stays_shown].
Qed.

Lemma stays_gated_block w args data m :
  (forall l, P (Printed l)) -> P (TrainerInit args data m) -> P TrainerFit ->
  respects (stays P) (gated_block w args data m).
Proof.
  intros HP Hinit Hfit s Hs. rewrite gated_block_eq. simpl. unfold gated_events.
  rewrite !Forall_app. split_and!; try done; try (by apply stays_shown).
  - by repeat constructor.
  - destruct (is_Ok _); [|constructor].
    apply Forall_app. split; [by repeat constructor|by apply stays_shown].
Qed.

Lemma stays_with {A} cm (body : M A) :
  respects (stays P) body -> respects (stays P) (with_ cm body).
Proof.
  intros Hbody s Hs. unfold with_. destruct cm as [|target]; [by apply Hbody|].
  specialize (Hbody (set_stdout target s) Hs).
  by destruct (body (set_stdout target s)).
Qed.

Lemma stays_bind_select_dtype {B} w args (k : TorchDtype -> M B) :
  (load_in_8bit (base args) = false -> P IsBf16Supported) ->
  respects (stays P)
    (k (precision_choice (load_in_8bit (base args)) (is_bf16_supported w))) ->
  respects (stays P) (bind (select_dtype w args) k).
Proof.
  intros Hprobe Hk s. unfold bind. rewrite select_dtype_eq.
  destruct (load_in_8bit (base args)); [apply Hk|].
  eapply stays_trans; [by apply stays_log, Hprobe|apply Hk].
Qed.

End Stays.

(** Steps through [run_from] for a property of events; leaves the
    side conditions on the events. *)
Ltac stays_steps P :=
  repeat first
    [ apply stays_gated_block
    | apply stays_print
    | apply stays_with
    | apply stays_call
    | apply respects_ret; apply stays_refl
    | apply respects_lift; apply stays_refl
    | apply stays_bind_select_dtype
    | apply respects_bind_call;
        [apply stays_trans|intros ?; apply stays_log|intros ? ?]
    | apply respects_bind; [apply stays_trans| |intros ?]
    | apply respects_if ].

(** X1.  A single-process run (no [LOCAL_RANK]) never binds a device,
    never touches [torch.distributed] and never shards, however it
    ends, and it loads the model on ["cuda:0"]; when lines 37-74
    complete, the trainer is built on exactly the rows that
    [chunk_and_tokenize] returned. *)
Theorem single_process_stays_local (w : World) :
  os_environ w !! "LOCAL_RANK" = None ->
  Forall single_process_event (trace (snd (exec w))) /\
  (forall ddp rank args tokenized m s1,
     acquire w initial = (Ok (ddp, rank, args, tokenized, m), s1) ->
     TrainerInit args tokenized m ∈ trace (snd (exec w))).
Proof.
  intros Henv. split.
  - unfold exec. rewrite run_run_from, Henv.
    assert (respects (stays single_process_event) (run_from w None false 0)) as H;
      [|apply (H initial); constructor].
    unfold run_from, init_distributed, shard_for_rank.
    stays_steps single_process_event; done.
  - intros ddp rank args tokenized m s1 Hacq.
    destruct (acquire_ok _ _ _ _ _ _ _ _ Hacq eq_refl) as (Hddp & _).
    rewrite Henv in Hddp. simpl in Hddp. subst ddp.
    unfold exec. rewrite (run_ok w initial s1 false rank args tokenized tokenized m Hacq);
      [|by rewrite shard_for_rank_eq|done].
    cbn [fst snd trace]. unfold gated_events. rewrite !elem_of_app. do 4 right. left.
    apply list_elem_of_here.
Qed.

Lemma single_process_stays_local_witness :
  Forall single_process_event (trace (snd (exec world_single))) /\
  TrainerInit
    {| base := {| load_in_8bit := false; hf_token := None |};
       model := default_model; dataset := default_dataset;
       split := default_split; ctx_len := default_ctx_len |}
    (sample_rows 10)
    {| model_id := default_model; model_dtype := bfloat16 |}
    ∈ trace (snd (exec world_single)).
Proof.
  split.
  - apply (proj1 (single_process_stays_local world_single eq_refl)).
  - apply (proj2 (single_process_stays_local world_single eq_refl)
             false 0 _ _ _ (snd (acquire world_single initial))).
    reflexivity.
Defined.

(** X2.  In a distributed run whose [LOCAL_RANK] parses to [rank],
    every call that takes a rank takes this one, however the run ends:
    the device bound is [rank], the process group uses ["nccl"], the
    model is loaded on ["cuda:<rank>"], and the shard requested is
    number [rank] of [get_world_size()]. *)
Theorem rank_reaches_every_call (w : World) (text : string) (rank : Z) :
  os_environ w !! "LOCAL_RANK" = Some text -> int text = Ok rank ->
  Forall (uses_rank w rank) (trace (snd (exec w))).
Proof.
  intros Henv Hint. unfold exec. rewrite run_run_from, Henv, Hint.
  assert (respects (stays (uses_rank w rank)) (run_from w (Some text) true rank)) as H;
    [|apply (H initial); constructor].
  unfold run_from, init_distributed, shard_for_rank, int_of. rewrite Hint.
  stays_steps (uses_rank w rank); simplify_eq; done.
Qed.

Lemma rank_reaches_every_call_witness :
  Forall (uses_rank world_rank3 3) (trace (snd (exec world_rank3))).
Proof. apply (rank_reaches_every_call world_rank3 "3" 3); reflexivity. Defined.

(** X3.  Once the command line has been resolved to [args], every
    later call takes its configured values from [args], however the
    run ends: model and tokenizer are loaded for [args.model], the
    loader gets the 8-bit flag, the token and the dtype chosen from
    the flag and the hardware, the dataset is loaded for
    [args.dataset] and [args.split], chunking gets [args.ctx_len], the
    trainer gets [args]; the bf16 probe is made only without the
    8-bit flag. *)
Theorem configuration_reaches_every_call (w : World) (args : RunConfig) :
  parse_RunConfig (sys_argv w) = Ok args ->
  Forall (uses_config w args) (trace (snd (exec w))).
Proof.
  intros Hparse. unfold exec. rewrite run_run_from.
  assert (forall lr ddp rank, respects (stays (uses_config w args)) (run_from w lr ddp rank))
    as H.
  { intros lr ddp rank. unfold run_from, init_distributed, shard_for_rank.
    stays_steps (uses_config w args).
    all: try match goal with
             | H : parse_RunConfig _ = Ok ?a |- _ =>
                 assert (a = args) as -> by congruence
             end.
    all: done. }
  destruct (os_environ w !! "LOCAL_RANK") as [text|].
  - destruct (int text); [apply H|]; constructor.
  - apply H. constructor.
Qed.

Lemma configuration_reaches_every_call_witness :
  Forall (uses_config world_8bit
            {| base := {| load_in_8bit := true; hf_token := None |};
               model := default_model; dataset := default_dataset;
               split := default_split; ctx_len := default_ctx_len |})
         (trace (snd (exec world_8bit))).
Proof. apply (configuration_reaches_every_call world_8bit). reflexivity. Defined.

(** ** Growth of the trace and the binding of [sys.stdout] *)

Lemma grows_refl s : grows s s.
Proof. by exists []; rewrite app_nil_r. Qed.

Lemma grows_trans s1 s2 s3 : grows s1 s2 -> grows s2 s3 -> grows s1 s3.
Proof. unfold grows. by intros ? ?; etrans. Qed.

Lemma grows_log ev s : grows s (log ev s).
Proof. unfold grows, log. simpl. by apply prefix_app_r. Qed.

Lemma grows_print line : respects grows (print line).
Proof. intros s. unfold grows. rewrite print_eq. simpl. by apply prefix_app_r. Qed.

Lemma grows_gated_block w args data m : respects grows (gated_block w args data m).
Proof. intros s. unfold grows. rewrite gated_block_eq. simpl. by apply prefix_app_r. Qed.

Lemma grows_with {A} cm (body : M A) :
  respects grows body -> respects grows (with_ cm body).
Proof.
  intros Hbody s. unfold with_. destruct cm as [|target]; [apply Hbody|].
  specialize (Hbody (set_stdout target s)).
  by destruct (body (set_stdout target s)).
Qed.

Lemma same_stdout_refl s : same_stdout s s.
Proof. done. Qed.

Lemma same_stdout_trans s1 s2 s3 :
  same_stdout s1 s2 -> same_stdout s2 s3 -> same_stdout s1 s3.
Proof. unfold same_stdout. congruence. Qed.

Lemma same_stdout_log ev s : same_stdout s (log ev s).
Proof. done. Qed.

Lemma same_stdout_print line : respects same_stdout (print line).
Proof. intros s. unfold same_stdout. by rewrite print_eq. Qed.

Lemma same_stdout_gated_block w args data m :
  respects same_stdout (gated_block w args data m).
Proof. intros s. unfold same_stdout. by rewrite gated_block_eq. Qed.

Lemma same_stdout_with {A} cm (body : M A) :
  respects same_stdout body -> respects same_stdout (with_ cm body).
Proof.
  intros Hbody s. unfold with_. destruct cm as [|target]; [apply Hbody|].
  by destruct (body (set_stdout target s)).
Qed.

Lemma run_from_grows w lr ddp rank : respects grows (run_from w lr ddp rank).
Proof.
  unfold run_from, init_distributed, select_dtype, shard_for_rank.
  run_steps grows_refl grows_trans grows_log grows_print
            (@grows_with unit) grows_gated_block.
Qed.

(** X4.  However a run ends, and on every rank, it leaves
    [sys.stdout] bound to the console: the redirection of line 79
    never outlives [run()], also when the trainer raises. *)
Theorem stdout_restored_after_run (w : World) :
  sys_stdout (snd (exec w)) = Some Console.
Proof.
  unfold exec. rewrite run_run_from.
  assert (forall lr ddp rank, respects same_stdout (run_from w lr ddp rank)) as H.
  { intros lr ddp rank.
    unfold run_from, init_distributed, select_dtype, shard_for_rank.
    run_steps same_stdout_refl same_stdout_trans same_stdout_log same_stdout_print
              (@same_stdout_with unit) same_stdout_gated_block. }
  destruct (os_environ w !! "LOCAL_RANK") as [text|]; [destruct (int text)|];
    try apply H; done.
Qed.

(** ** Order of the first steps *)

Lemma init_distributed_eq (w : World) (text : string) (rank : Z) (s : State) :
  int text = Ok rank ->
  init_distributed w (Some text) true rank s =
  match cuda_set_device w rank with
  | Raise e => (Raise e, log (CudaSetDevice rank) s)
  | Ok _ =>
      match init_process_group w "nccl" with
      | Raise e => (Raise e, log (InitProcessGroup "nccl") (log (CudaSetDevice rank) s))
      | Ok _ =>
          if rank =? 0
          then print (announcement w)
                 (log GetWorldSize
                    (log (InitProcessGroup "nccl") (log (CudaSetDevice rank) s)))
          else (Ok tt, log (InitProcessGroup "nccl") (log (CudaSetDevice rank) s))
      end
  end.
Proof.
  intros Hint. unfold init_distributed, bind, lift, int_of, call. rewrite Hint.
  destruct (cuda_set_device w rank) as [[]|e]; [|done].
  destruct (init_process_group w "nccl") as [[]|e]; [|done].
  by destruct (rank =? 0).
Qed.

Lemma run_from_distributed_start (w : World) (text : string) (rank : Z) :
  int text = Ok rank ->
  ParseArgs ∉ trace (snd (run_from w (Some text) true rank initial)) \/
  (cuda_set_device w rank = Ok tt /\
   init_process_group w "nccl" = Ok tt /\
   exists rest,
     trace (snd (run_from w (Some text) true rank initial)) =
     CudaSetDevice rank :: InitProcessGroup "nccl" :: rest).
Proof.
  intros Hint.
  remember (run_from w (Some text) true rank initial) as final eqn:Hfinal.
  unfold run_from in Hfinal. unfold bind at 1 in Hfinal.
  rewrite (init_distributed_eq w text rank initial Hint) in Hfinal.
  destruct (cuda_set_device w rank) as [[]|e].
  2: { left. subst final. simpl. by intros [=]%list_elem_of_singleton. }
  destruct (init_process_group w "nccl") as [[]|e].
  2: { left. subst final. simpl. intros Hin.
       repeat (apply elem_of_cons in Hin as [[=]|Hin]). by apply elem_of_nil in Hin. }
  right. split; [done|]. split; [done|].
  lazymatch type of Hfinal with
  | context [match ?m with _ => _ end] =>
      assert (exists evs, trace (snd m) =
                [CudaSetDevice rank; InitProcessGroup "nccl"] ++ evs
              /\ fst m = Ok tt) as (evs0 & Hinit & Hres);
      [destruct (rank =? 0); [rewrite print_eq|]; simpl; by eauto|];
      destruct m as [[[]|e] s2]; [|done]
  end.
  simpl in Hinit.
  lazymatch type of Hfinal with
  | _ = ?k s2 => assert (respects grows k) as Hk
  end.
  { unfold select_dtype, shard_for_rank.
    run_steps grows_refl grows_trans grows_log grows_print
              (@grows_with unit) grows_gated_block. }
  destruct (Hk s2) as [evs Hevs].
  subst final. rewrite Hevs, Hinit. simpl. by eauto.
Qed.

(** X5.  A distributed run reads its command line only after it has
    bound the device and joined the process group: if [parse] was
    reached at all, both calls returned and they are the first two
    events of the run.  A rejected command line is therefore reported
    only after the peers have been waited for. *)
Theorem process_group_joined_before_parsing (w : World) (text : string) :
  os_environ w !! "LOCAL_RANK" = Some text ->
  ParseArgs ∈ trace (snd (exec w)) ->
  exists rank rest,
    int text = Ok rank /\
    cuda_set_device w rank = Ok tt /\
    init_process_group w "nccl" = Ok tt /\
    trace (snd (exec w)) = CudaSetDevice rank :: InitProcessGroup "nccl" :: rest.
Proof.
  intros Henv. unfold exec. rewrite run_run_from, Henv.
  destruct (int text) as [rank|e] eqn:Hint; [|by intros ?%elem_of_nil].
  intros Hparse.
  destruct (run_from_distributed_start w text rank Hint)
    as [Hnot|(Hdev & Hgroup & rest & Hrest)]; [done|].
  by exists rank, rest.
Qed.

Lemma process_group_joined_before_parsing_witness :
  exists rank rest,
    int "3" = Ok rank /\
    cuda_set_device world_rank3 rank = Ok tt /\
    init_process_group world_rank3 "nccl" = Ok tt /\
    trace (snd (exec world_rank3)) =
      CudaSetDevice rank :: InitProcessGroup "nccl" :: rest.
Proof.
  apply (process_group_joined_before_parsing world_rank3 "3" eq_refl).
  vm_compute. do 2 apply list_elem_of_further. apply list_elem_of_here.
Defined.

(** ** Outcome of a run *)

Lemma calls_acquire_shard_gated w ddp rank args data m out :
  calls (acquire_events w ddp rank args ++ shard_events w ddp rank ++
         gated_events w out args data m) =
  calls (acquire_events w ddp rank args) ++ shard_events w ddp rank ++
  [TrainerInit args data m] ++
  (if is_Ok (snd (SaeTrainer w args data m)) then [TrainerFit] else []).
Proof.
  unfold gated_events. rewrite !calls_app, !calls_shown.
  replace (calls (shard_events w ddp rank)) with (shard_events w ddp rank)
    by (by destruct ddp).
  destruct (is_Ok _); [|done]. by rewrite calls_app, calls_shown.
Qed.

(** X6.  [run()] returns normally exactly when every stage did:
    lines 37-74 completed, the shard was computed, the trainer's
    constructor returned and [fit] returned.  The calls it has then
    made are those of lines 37-76 followed by one construction of the
    trainer on the shard and one [fit]; so any exception of any
    collaborator ends the run. *)
Theorem run_returns_iff_all_stages_return (w : World) :
  fst (exec w) = Ok tt <->
  exists ddp rank args tokenized data m s1,
    acquire w initial = (Ok (ddp, rank, args, tokenized, m), s1) /\
    fst (shard_for_rank w ddp rank tokenized s1) = Ok data /\
    snd (SaeTrainer w args data m) = Ok tt /\
    snd (fit w args data m) = Ok tt /\
    calls (trace (snd (exec w))) =
      calls (acquire_events w ddp rank args) ++ shard_events w ddp rank ++
      [TrainerInit args data m; TrainerFit].
Proof.
  split.
  - intros Hok.
    destruct (acquire w initial) as [[[[[[ddp rank] args] tokenized] m]|e] s1] eqn:Hacq.
    2: { unfold exec in Hok. rewrite run_stages in Hok. unfold bind in Hok.
         by rewrite Hacq in Hok. }
    destruct (shard_for_rank w ddp rank tokenized s1) as [[data|e] s2] eqn:Hshard.
    2: { unfold exec in Hok. rewrite run_stages in Hok. unfold bind, handoff, bind in Hok.
         by rewrite Hacq, Hshard in Hok. }
    assert (fst (shard_for_rank w ddp rank tokenized s1) = Ok data) as Hdata
      by (by rewrite Hshard).
    unfold exec in Hok |- *.
    rewrite (run_ok w initial s1 ddp rank args tokenized data m Hacq Hdata eq_refl)
      in Hok |- *.
    cbn [fst snd trace] in Hok |- *. unfold gated_outcome in Hok.
    destruct (snd (SaeTrainer w args data m)) as [[]|e] eqn:Hctor; [|done].
    exists ddp, rank, args, tokenized, data, m, s1. split_and!; try done.
    rewrite app_nil_l, calls_acquire_shard_gated. by rewrite Hctor.
  - intros (ddp & rank & args & tokenized & data & m & s1 & Hacq & Hdata & Hctor & Hfit & _).
    unfold exec.
    rewrite (run_ok w initial s1 ddp rank args tokenized data m Hacq Hdata eq_refl).
    cbn [fst]. unfold gated_outcome. by rewrite Hctor.
Qed.

Lemma run_returns_iff_all_stages_return_witness :
  exists ddp rank args tokenized data m s1,
    acquire world_single initial = (Ok (ddp, rank, args, tokenized, m), s1) /\
    fst (shard_for_rank world_single ddp rank tokenized s1) = Ok data /\
    snd (SaeTrainer world_single args data m) = Ok tt /\
    snd (fit world_single args data m) = Ok tt /\
    calls (trace (snd (exec world_single))) =
      calls (acquire_events world_single ddp rank args) ++
      shard_events world_single ddp rank ++
      [TrainerInit args data m; TrainerFit].
Proof.
  apply (proj1 (run_returns_iff_all_stages_return world_single)). reflexivity.
Defined.

(** X7.  A distributed run whose rank is no valid shard number
    (negative, or not below the world size) loads the model, loads and
    tokenizes the dataset, and only then raises [ValueError] from
    [shard]: the trainer is never built and neither of the lines under
    the gate is printed. *)
Theorem rank_out_of_range_raises_at_shard (w : World) rank args tokenized m s1 :
  acquire w initial = (Ok (true, rank, args, tokenized, m), s1) ->
  ~ (0 <= rank < get_world_size w) ->
  exec w =
    (Raise (ValueError "index should be in [0, num_shards-1]"),
     {| trace := acquire_events w true rank args ++ shard_events w true rank;
        sys_stdout := Some Console |}) /\
  occurrences is_access (trace (snd (exec w))) = 4%nat /\
  trainer_events (trace (snd (exec w))) = [] /\
  console (trace (snd (exec w))) = if rank =? 0 then [announcement w] else [].
Proof.
  intros Hacq Hrank.
  assert (exec w =
          (Raise (ValueError "index should be in [0, num_shards-1]"),
           {| trace := acquire_events w true rank args ++ shard_events w true rank;
              sys_stdout := Some Console |})) as Hexec.
  { unfold exec. rewrite run_stages. unfold bind. rewrite Hacq.
    destruct (acquire_ok _ _ _ _ _ _ _ _ Hacq eq_refl) as (_ & _ & _ & _ & ->).
    unfold handoff, bind. rewrite shard_for_rank_eq.
    by rewrite Datasets_shard_out_of_range. }
  rewrite Hexec. cbn [fst snd trace]. split_and!; [done|..].
  - unfold acquire_events, init_events, shard_events.
    by destruct (rank =? 0), (load_in_8bit (base args)).
  - unfold acquire_events, init_events, shard_events.
    by destruct (rank =? 0), (load_in_8bit (base args)).
  - rewrite console_app, console_acquire_events. simpl. by rewrite app_nil_r.
Qed.

Lemma rank_out_of_range_raises_at_shard_witness :
  fst (exec world_rank_too_large) =
    Raise (ValueError "index should be in [0, num_shards-1]") /\
  trainer_events (trace (snd (exec world_rank_too_large))) = [].
Proof.
  assert (~ (0 <= 5 < get_world_size world_rank_too_large)) as H
    by (vm_compute; intros [_ H]; discriminate H).
  pose proof (rank_out_of_range_raises_at_shard world_rank_too_large 5 _ _ _ _ eq_refl H)
    as (Hexec & _ & Hnone & _).
  split; [by rewrite Hexec|exact Hnone].
Defined.

Lemma trainer_events_app t1 t2 :
  trainer_events (t1 ++ t2) = trainer_events t1 ++ trainer_events t2.
Proof. apply List.filter_app. Qed.

Lemma trainer_events_none t :
  Forall (fun ev => is_trainer_event ev = false) t -> trainer_events t = [].
Proof.
  induction 1 as [|ev t Hev _ IH]; [done|]. unfold trainer_events in *. simpl.
  by rewrite Hev.
Qed.

Lemma trainer_events_shown out lines : trainer_events (shown out lines) = [].
Proof. destruct out as [[]|]; [|done]. unfold shown. by induction lines. Qed.

Lemma trainer_events_gated w out args data m :
  trainer_events (gated_events w out args data m) =
  TrainerInit args data m ::
  (if is_Ok (snd (SaeTrainer w args data m)) then [TrainerFit] else []).
Proof.
  unfold gated_events. rewrite !trainer_events_app, !trainer_events_shown.
  destruct (is_Ok _); [|done]. by rewrite trainer_events_app, trainer_events_shown.
Qed.

(** Lines 37-74 never call the trainer, however they end. *)
Lemma acquire_no_trainer (w : World) :
  respects (stays (fun ev => is_trainer_event ev = false)) (acquire w).
Proof.
  unfold acquire, topology, init_distributed, select_dtype.
  repeat first
    [ apply stays_print
    | apply stays_call
    | apply respects_ret; apply stays_refl
    | apply respects_lift; apply stays_refl
    | match goal with |- respects _ (let '(_, _) := ?x in _) => destruct x end
    | apply respects_bind; [apply stays_trans| |intros ?]
    | apply respects_if ]; done.
Qed.

(** X8.  However a run ends, the trainer is built at most once and
    [fit] is called at most once, only after the constructor
    returned: the trainer's events in the trace are none (the run
    raised before line 83), or one construction whose exception is the
    outcome of the run, or one construction that returned followed by
    one [fit] whose outcome is the outcome of the run. *)
Theorem trainer_built_once_then_fit (w : World) :
  (trainer_events (trace (snd (exec w))) = [] /\ exists e, fst (exec w) = Raise e) \/
  exists args data m,
    (trainer_events (trace (snd (exec w))) = [TrainerInit args data m] /\
     is_Ok (snd (SaeTrainer w args data m)) = false /\
     fst (exec w) = snd (SaeTrainer w args data m)) \/
    (trainer_events (trace (snd (exec w))) = [TrainerInit args data m; TrainerFit] /\
     is_Ok (snd (SaeTrainer w args data m)) = true /\
     fst (exec w) = snd (fit w args data m)).
Proof.
  pose proof (acquire_no_trainer w initial ltac:(constructor)) as Hacq_tr.
  apply trainer_events_none in Hacq_tr.
  unfold exec. rewrite run_stages. unfold bind.
  destruct (acquire w initial) as [[[[[[ddp rank] args] tokenized] m]|e] s1] eqn:Hacq;
    simpl in Hacq_tr.
  2: { left. eauto. }
  destruct (acquire_ok _ _ _ _ _ _ _ _ Hacq eq_refl) as (_ & _ & _ & _ & Hs1).
  unfold handoff, bind. rewrite shard_for_rank_eq.
  assert (forall data s2,
            trainer_events (trace s2) = [] ->
            exists args' data' m',
              (trainer_events (trace (snd (with_ (output_gate rank)
                                             (gated_block w args data m) s2))) =
                 [TrainerInit args' data' m'] /\
               is_Ok (snd (SaeTrainer w args' data' m')) = false /\
               fst (with_ (output_gate rank) (gated_block w args data m) s2) =
                 snd (SaeTrainer w args' data' m')) \/
              (trainer_events (trace (snd (with_ (output_gate rank)
                                             (gated_block w args data m) s2))) =
                 [TrainerInit args' data' m'; TrainerFit] /\
               is_Ok (snd (SaeTrainer w args' data' m')) = true /\
               fst (with_ (output_gate rank) (gated_block w args data m) s2) =
                 snd (fit w args' data' m'))) as Hgate.
  { intros data s2 Hs2. exists args, data, m.
    rewrite with_output_gate_eq, !gated_block_eq.
    assert (forall out,
              trainer_events (trace s2 ++ gated_events w out args data m) =
              TrainerInit args data m ::
              (if is_Ok (snd (SaeTrainer w args data m)) then [TrainerFit] else []))
      as Hev by (intros out; by rewrite trainer_events_app, Hs2, trainer_events_gated).
    unfold gated_outcome.
    destruct (snd (SaeTrainer w args data m)) as [[]|e] eqn:Hctor;
      [right|left]; destruct (rank =? 0); cbn [fst snd trace set_stdout];
      rewrite Hev; done. }
  destruct ddp.
  - destruct (Datasets.shard _ _ _ _) as [data|e].
    + right. apply Hgate. cbn [trace]. rewrite trainer_events_app, Hacq_tr. done.
    + left. cbn [fst snd trace]. rewrite trainer_events_app, Hacq_tr. eauto.
  - right. by apply Hgate.
Qed.

(** ** Rows and sizes of a shard *)

Lemma arange_lookup (n W r : Z) (k : nat) :
  0 <= r < W -> 0 <= n ->
  Datasets.arange r n W !! k =
  if decide (r + Z.of_nat k * W < n) then Some (r + Z.of_nat k * W) else None.
Proof.
  intros Hr Hn. unfold Datasets.arange. rewrite list_lookup_fmap.
  pose proof (Z.mul_div_le (n - r + W - 1) W ltac:(lia)) as Hlo.
  pose proof (Z.mul_succ_div_gt (n - r + W - 1) W ltac:(lia)) as Hhi.
  destruct (decide (r + Z.of_nat k * W < n)) as [Hlt|Hge].
  - rewrite lookup_seqZ_lt; [done|].
    assert (Z.of_nat k + 1 <= (n - r + W - 1) `div` W); [|lia].
    apply Z.div_le_lower_bound; [lia|]. nia.
  - rewrite lookup_seqZ_ge; [done|]. nia.
Qed.

Lemma arange_count_closed (n W r : Z) :
  0 <= r < W -> 0 <= n ->
  (n - r + W - 1) `div` W = n `div` W + (if r <? n `mod` W then 1 else 0).
Proof.
  intros Hr Hn.
  pose proof (Z.div_mod n W ltac:(lia)) as Hdm.
  pose proof (Z.mod_pos_bound n W ltac:(lia)) as Hm.
  destruct (Z.ltb_spec r (n `mod` W)).
  - symmetry. apply (Z.div_unique_pos _ _ _ (n `mod` W - r - 1)); lia.
  - symmetry. apply (Z.div_unique_pos _ _ _ (n `mod` W - r + W - 1)); lia.
Qed.

(** X9.  Where the rows go, in a distributed run over [W] processes.
    Where [Dataset.shard] defaults to [contiguous=False], row [k] of
    the shard of rank [r] is row [r + k * W] of the tokenized dataset,
    and beyond the one there is no row beyond the other; so row [i]
    of the dataset is found on rank [i mod W] at position [i div W].
    Where it defaults to [contiguous=True], row [k] of the shard of
    rank [r] is row [block_start N W r + k] of the dataset. *)
Theorem shard_row_lookup (w : World) (tokenized rows : Dataset) (r : Z) (s : State) :
  0 <= r < get_world_size w ->
  fst (shard_for_rank w true r tokenized s) = Ok rows ->
  (shard_contiguous_default w = false ->
     (forall k : nat,
        rows !! k = tokenized !! Z.to_nat (r + Z.of_nat k * get_world_size w)) /\
     (forall i : nat,
        Z.of_nat i `mod` get_world_size w = r ->
        tokenized !! i = rows !! Z.to_nat (Z.of_nat i `div` get_world_size w))) /\
  (shard_contiguous_default w = true ->
     forall k : nat,
       (k < length rows)%nat ->
       rows !! k =
       tokenized !! Z.to_nat (Datasets.block_start (Datasets.len tokenized)
                                (get_world_size w) r + Z.of_nat k)).
Proof.
  intros Hr Hrows. rewrite shard_for_rank_distributed in Hrows.
  destruct (Datasets_shard_in_range tokenized (get_world_size w) r
              (shard_contiguous_default w) Hr) as (rows' & Hrows' & Hall).
  rewrite Hrows in Hrows'. simplify_eq.
  split; intros Hdefault; rewrite Hdefault in Hall.
  - unfold Datasets.shard_indices in Hall.
    assert (forall k : nat,
              rows' !! k = tokenized !! Z.to_nat (r + Z.of_nat k * get_world_size w))
      as Hlookup.
    { intros k.
      pose proof (arange_lookup (Datasets.len tokenized) (get_world_size w) r k Hr
                    ltac:(unfold Datasets.len; lia)) as Hk.
      destruct (decide (r + Z.of_nat k * get_world_size w < Datasets.len tokenized))
        as [Hlt|Hge].
      - destruct (Forall2_lookup_l _ _ _ _ _ Hall Hk) as (row & Hrow & Hds).
        rewrite Hrow. symmetry. exact Hds.
      - rewrite (lookup_ge_None_2 tokenized) by (unfold Datasets.len in Hge; nia).
        apply lookup_ge_None_2. rewrite <- (Forall2_length _ _ _ Hall).
        destruct (Nat.le_gt_cases (length (Datasets.arange r (Datasets.len tokenized)
                                             (get_world_size w))) k) as [|Hk']; [done|].
        apply lookup_lt_is_Some_2 in Hk' as [i Hi]. by rewrite Hk in Hi. }
    split; [done|].
    intros i Hi. rewrite Hlookup. f_equal.
    pose proof (Z.div_mod (Z.of_nat i) (get_world_size w) ltac:(lia)) as Hdm.
    assert (0 <= Z.of_nat i `div` get_world_size w) by (apply Z.div_pos; lia).
    rewrite Z2Nat.id by done. lia.
  - rewrite shard_indices_contiguous in Hall. intros k Hk.
    rewrite <- (Forall2_length _ _ _ Hall), length_seqZ in Hk.
    assert (seqZ (Datasets.block_start (Datasets.len tokenized) (get_world_size w) r)
                 (Datasets.block_start (Datasets.len tokenized) (get_world_size w) (r + 1) -
                  Datasets.block_start (Datasets.len tokenized) (get_world_size w) r)
              !! k =
            Some (Datasets.block_start (Datasets.len tokenized) (get_world_size w) r +
                  Z.of_nat k)) as Hseq
      by (apply lookup_seqZ_lt; lia).
    destruct (Forall2_lookup_l _ _ _ _ _ Hall Hseq) as (row & Hrow & Hds).
    exact (eq_trans Hrow (eq_sym Hds)).
Qed.

Lemma shard_row_lookup_witness :
  [[1]; [5]; [9]] !! 2%nat =
    sample_rows 10 !! Z.to_nat (1 + Z.of_nat 2 * get_world_size world_of_four) /\
  sample_rows 10 !! 9%nat =
    [[1]; [5]; [9]] !! Z.to_nat (Z.of_nat 9 `div` get_world_size world_of_four) /\
  [[3]; [4]; [5]] !! 2%nat =
    sample_rows 10 !!
      Z.to_nat (Datasets.block_start (Datasets.len (sample_rows 10))
                  (get_world_size world_of_four_contiguous) 1 + Z.of_nat 2).
Proof.
  split_and!.
  - apply (proj1 (proj1 (shard_row_lookup world_of_four (sample_rows 10) [[1]; [5]; [9]] 1
                           initial ltac:(vm_compute; split; [discriminate|reflexivity])
                           eq_refl) eq_refl)).
  - apply (proj2 (proj1 (shard_row_lookup world_of_four (sample_rows 10) [[1]; [5]; [9]] 1
                           initial ltac:(vm_compute; split; [discriminate|reflexivity])
                           eq_refl) eq_refl)).
    reflexivity.
  - apply (proj2 (shard_row_lookup world_of_four_contiguous (sample_rows 10)
                    [[3]; [4]; [5]] 1 initial
                    ltac:(vm_compute; split; [discriminate|reflexivity]) eq_refl) eq_refl).
    simpl. lia.
Defined.

(** X10.  How many rows a rank keeps: in a distributed run over [W]
    processes on [N] tokenized rows, rank [r] keeps
    [N div W] rows, and one more when [r < N mod W]; hence no rank
    keeps more rows than a lower rank. *)
Theorem shard_size (w : World) (tokenized rows : Dataset) (r : Z) (s : State) :
  0 <= r < get_world_size w ->
  fst (shard_for_rank w true r tokenized s) = Ok rows ->
  Datasets.len rows =
    Datasets.len tokenized `div` get_world_size w +
    (if r <? Datasets.len tokenized `mod` get_world_size w then 1 else 0) /\
  (forall r' rows',
     r <= r' < get_world_size w ->
     fst (shard_for_rank w true r' tokenized s) = Ok rows' ->
     Datasets.len rows' <= Datasets.len rows).
Proof.
  intros Hr Hrows.
  assert (forall q rows0,
            0 <= q < get_world_size w ->
            fst (shard_for_rank w true q tokenized s) = Ok rows0 ->
            Datasets.len rows0 =
              Datasets.len tokenized `div` get_world_size w +
              (if q <? Datasets.len tokenized `mod` get_world_size w then 1 else 0))
    as Hsize.
  { intros q rows0 Hq Hrows0. rewrite shard_for_rank_distributed in Hrows0.
    destruct (Datasets_shard_in_range tokenized (get_world_size w) q
                (shard_contiguous_default w) Hq) as (rows' & Hrows' & Hall).
    rewrite Hrows0 in Hrows'. simplify_eq.
    unfold Datasets.len at 1. rewrite <- (Forall2_length _ _ _ Hall).
    assert (0 <= Datasets.len tokenized `div` get_world_size w)
      by (apply Z.div_pos; unfold Datasets.len; lia).
    destruct (shard_contiguous_default w).
    - rewrite shard_indices_contiguous, length_seqZ. unfold Datasets.block_start.
      destruct (Z.ltb_spec q (Datasets.len tokenized `mod` get_world_size w)); lia.
    - unfold Datasets.shard_indices. rewrite length_arange.
      pose proof (arange_count_closed (Datasets.len tokenized) (get_world_size w) q Hq
                    ltac:(unfold Datasets.len; lia)) as Hcount.
      rewrite Z2Nat.id; [done|]. rewrite Hcount. destruct (q <? _); lia. }
  split; [by apply Hsize|].
  intros r' rows' Hr' Hrows'.
  rewrite (Hsize r rows Hr Hrows), (Hsize r' rows' ltac:(lia) Hrows').
  destruct (Z.ltb_spec r (Datasets.len tokenized `mod` get_world_size w));
    destruct (Z.ltb_spec r' (Datasets.len tokenized `mod` get_world_size w)); lia.
Qed.

Lemma shard_size_witness :
  Datasets.len [[1]; [5]; [9]] =
    Datasets.len (sample_rows 10) `div` get_world_size world_of_four +
    (if 1 <? Datasets.len (sample_rows 10) `mod` get_world_size world_of_four
     then 1 else 0).
Proof.
  apply (proj1 (shard_size world_of_four (sample_rows 10) [[1]; [5]; [9]] 1 initial
                  ltac:(vm_compute; split; [discriminate|reflexivity]) eq_refl)).
Defined.

(** ** Blank rank signals *)

Lemma skip_spaces_blank (text : string) :
  is_blank text = true -> PyInt.skip_spaces text = EmptyString.
Proof.
  induction text as [|c rest IH]; [done|]. simpl.
  intros [Hc Hrest]%andb_prop. rewrite Hc. by apply IH.
Qed.

(** X11.  A [LOCAL_RANK] that is set but empty or blank is not taken
    for an absent one: the run does not fall back to a single process
    but raises [ValueError] at once, before any call. *)
Theorem blank_rank_is_not_absent (w : World) (text : string) :
  os_environ w !! "LOCAL_RANK" = Some text -> is_blank text = true ->
  exec w = (Raise (ValueError text), initial).
Proof.
  intros Henv Hblank. unfold exec. rewrite run_run_from, Henv.
  unfold int, PyInt.parse. by rewrite (skip_spaces_blank text Hblank).
Qed.

Lemma blank_rank_is_not_absent_witness :
  exec world_empty_rank = (Raise (ValueError EmptyString), initial).
Proof. apply (blank_rank_is_not_absent world_empty_rank EmptyString); reflexivity. Defined.

(** ** No stage without the one before *)

(** X13.  However a run ends, no stage was started unless the stage
    before it had returned: the model loader is called only with a
    resolved command line, the dataset loader only after the model
    loader returned, the tokenizer's loader only after the dataset
    loader returned, chunking only after the tokenizer was loaded, and
    the trainer is built only after all of these and chunking
    returned. *)
Theorem stages_follow_success (w : World) :
  Forall (made_after_success w) (trace (snd (exec w))).
Proof.
  unfold exec. rewrite run_run_from.
  assert (forall lr ddp rank, respects (stays (made_after_success w)) (run_from w lr ddp rank))
    as H.
  { intros lr ddp rank.
    unfold run_from, init_distributed, select_dtype, shard_for_rank.
    repeat first
      [ apply stays_gated_block
      | apply stays_print
      | apply stays_with
      | apply stays_call
      | apply respects_ret; apply stays_refl
      | apply respects_lift; apply stays_refl
      | apply respects_bind_call;
          [apply stays_trans|intros ?; apply stays_log|intros ? ?]
      | apply respects_bind; [apply stays_trans| |intros ?]
      | apply respects_if ].
    all: simpl; eauto 15. }
  destruct (os_environ w !! "LOCAL_RANK") as [text|]; [destruct (int text)|];
    try apply H; constructor.
Qed.
